(** * Product catalogue service: authentication flow and role-gated CRUD

    A shallow embedding of [auth.py] and [product_apiroute.py].

    - Python exceptions are an explicit [outcome]; handlers that use the
      SQLAlchemy session run in a state-and-exception monad [db] over the
      [Store] (the tables behind the session).
    - [datetime] values are microseconds since the epoch, as Python keeps
      them; a NumericDate is whole seconds.
    - The collaborators (passlib, python-jose, SQLAlchemy, FastAPI's
      dependency resolution) are modelled at the boundary the code calls. *)

From Stdlib Require Import ZArith String Ascii List Bool Lia Floats.
From stdpp Require Import base tactics option list.
Import ListNotations.

Open Scope string_scope.
Open Scope Z_scope.

(** ** Exceptions and the two monads *)

(** The subclasses of [jose.JWTError] that [jwt.decode] raises. *)
Inductive JWTError_kind :=
| JWTError_base            (* malformed token, bad signature, bad algorithm *)
| ExpiredSignatureError
| JWTClaimsError.

Inductive exn :=
| HTTPException (status_code : Z) (detail : string) (headers : list (string * string))
| JWTError (kind : JWTError_kind)
| UnknownHashError         (* passlib.exc.UnknownHashError *)
| IntegrityError           (* sqlalchemy.exc.IntegrityError *)
| OtherError (name : string).

Inductive outcome (A : Type) :=
| Ok (a : A)
| Raise (e : exn).
Arguments Ok {A} a.
Arguments Raise {A} e.

#[global] Instance outcome_ret : MRet outcome := fun A a => Ok a.
#[global] Instance outcome_bind : MBind outcome := fun A B f m =>
  match m with
  | Ok a => f a
  | Raise e => Raise e
  end.

(** [try: m except JWTError: handler] -- only a [JWTError] is caught. *)
Definition except_JWTError {A} (m : outcome A) (handler : outcome A) : outcome A :=
  match m with
  | Raise (JWTError _) => handler
  | _ => m
  end.

(** ** Data model *)

Definition datetime := Z.   (* microseconds since 1970-01-01T00:00:00 UTC *)
Definition timedelta := Z.  (* microseconds *)

Definition timedelta_minutes (m : Z) : timedelta := m * 60 * 1000000.

(** [calendar.timegm(dt.utctimetuple())]: the time tuple has no
    microseconds, so the result is the whole seconds of [dt]. *)
Definition timegm (dt : datetime) : Z := dt / 1000000.

(** Modelled from the spec: [db_model.User] is not among the sources. The
    fields are the keyword arguments [create_user] passes, the numeric id of
    the data model (section 3) and its types. *)
Record User := mkUser {
  User_id : Z;
  username : string;
  email : option string;
  hashed_password : string;
  is_active : bool;
  is_superuser : bool
}.

(** [model.Product]. The stored row is built from [product.model_dump()],
    that is from exactly these fields, so one record serves for both. *)
Record Product := mkProduct {
  Product_id : Z;
  name : string;
  description : string;
  price : float;
  quantity : Z
}.

(** [model.UserCreate] *)
Record UserCreate := mkUserCreate {
  uc_username : string;
  uc_email : option string;
  uc_password : string
}.

(** [model.TokenData] *)
Record TokenData := mkTokenData {
  td_username : option string;
  td_is_superuser : option bool
}.

(** The tables behind a SQLAlchemy session, rows in storage order. *)
Record Store := mkStore {
  users : list User;
  products : list Product
}.

Definition db (A : Type) : Type := Store -> outcome A * Store.

#[global] Instance db_ret : MRet db := fun A a s => (Ok a, s).
#[global] Instance db_bind : MBind db := fun A B f m s =>
  match m s with
  | (Ok a, s') => f a s'
  | (Raise e, s') => (Raise e, s')
  end.

Definition raise {A} (e : exn) : db A := fun s => (Raise e, s).
Definition lift {A} (o : outcome A) : db A := fun s => (o, s).

(** ** Security setup ([auth.py], lines 28-38) *)

Definition SECRET_KEY : string := "change-me-to-a-random-secret-in-production".
Definition ALGORITHM : string := "HS256".
Definition ACCESS_TOKEN_EXPIRE_MINUTES : Z := 60.

(** *** passlib's [CryptContext(schemes=["argon2"])]

    [CryptContext.verify(secret, hash)] first identifies the scheme of
    [hash]: the argon2 handler's [identify] recognises a string by the
    regular expression [^\$argon2[a-z]+\$]. When no configured scheme
    recognises the hash, the context raises [UnknownHashError] ("hash could
    not be identified"); a recognised hash is passed to the handler's own
    [verify]. *)

Definition is_lower (c : ascii) : bool :=
  let n := Z.of_nat (nat_of_ascii c) in (97 <=? n) && (n <=? 122).

Definition is_dollar (c : ascii) : bool := Ascii.eqb c "$"%char.

(** [[a-z]+\$] at the head of [s]; [seen] tells whether a letter was read. *)
Fixpoint letters_then_dollar (seen : bool) (s : string) : bool :=
  match s with
  | EmptyString => false
  | String c rest =>
      if is_lower c then letters_then_dollar true rest
      else seen && is_dollar c
  end.

Fixpoint strip_prefix (p s : string) : option string :=
  match p, s with
  | EmptyString, _ => Some s
  | String a p', String b s' => if Ascii.eqb a b then strip_prefix p' s' else None
  | String _ _, EmptyString => None
  end.

Definition argon2_identify (hash : string) : bool :=
  match strip_prefix "$argon2" hash with
  | Some rest => letters_then_dollar false rest
  | None => false
  end.

(** The argon2 handler itself: verification of a recognised hash (it may
    raise, for instance on a recognised but malformed hash), and hashing
    with the salt the handler draws. *)
Class PasswordHasher := {
  argon2_verify : string -> string -> outcome bool;
  argon2_hash : string -> string -> string
}.

Definition pwd_context_verify `{PasswordHasher} (secret hash : string) : outcome bool :=
  if argon2_identify hash then argon2_verify secret hash
  else Raise UnknownHashError.

Definition pwd_context_hash `{PasswordHasher} (salt secret : string) : string :=
  argon2_hash salt secret.

(** *** python-jose's [jwt.encode] and [jwt.decode]

    Tokens are symbolic: a compact JWS is the algorithm of its header, the
    key its signature was computed with and its payload, so a signature
    verifies exactly under the key that made it. The claims are those of
    the token format, with the types the code annotates them with; each may
    be absent. [T] is the type of [exp]: a [datetime] in the dict handed to
    [jwt.encode], a NumericDate (whole seconds) in a payload. *)

Record claims (T : Type) := mkClaims {
  claim_sub : option string;
  claim_is_superuser : option bool;
  claim_exp : option T
}.
Arguments mkClaims {T} _ _ _.
Arguments claim_sub {T} _.
Arguments claim_is_superuser {T} _.
Arguments claim_exp {T} _.

Inductive token :=
| JWS (alg : string) (key : string) (payload : claims Z)
| NotJWS (raw : string).     (* any other bearer string *)

(** A [datetime] under [exp] is replaced by [timegm] of its time tuple. *)
Definition jwt_encode (to_encode : claims datetime) (key algorithm : string) : token :=
  JWS algorithm key
      (mkClaims (claim_sub to_encode) (claim_is_superuser to_encode)
                (timegm <$> claim_exp to_encode)).

(** Signature first (the header's algorithm must be one of [algorithms]),
    then the claims: jose's [_validate_exp] computes [now] as [timegm] of
    [datetime.utcnow()] and raises [ExpiredSignatureError] when
    [exp < now - leeway], the leeway being 0 here; a payload without [exp]
    passes. Every failure is a [JWTError]. *)
Definition jwt_decode (t : token) (key : string) (algorithms : list string)
    (utcnow : datetime) : outcome (claims Z) :=
  match t with
  | NotJWS _ => Raise (JWTError JWTError_base)
  | JWS alg k payload =>
      if negb (existsb (String.eqb alg) algorithms) then Raise (JWTError JWTError_base)
      else if negb (String.eqb k key) then Raise (JWTError JWTError_base)
      else match claim_exp payload with
           | Some exp =>
               if exp <? timegm utcnow then Raise (JWTError ExpiredSignatureError)
               else Ok payload
           | None => Ok payload
           end
  end.

(** *** The storage collaborator

    Modelled from the spec: [db_model] (the tables and their constraints) is
    not among the sources. [integrity] is whatever the tables declare
    (primary keys, the unique username of section 2); a commit that would
    break it raises [IntegrityError] and leaves the tables as they were.
    [fresh_user_id] is the id the store assigns to a new user row. *)
Class Storage := {
  integrity : Store -> bool;
  fresh_user_id : list User -> Z
}.

(** [db.query(T).filter(p).first()] *)
Definition query_first {A} (table : Store -> list A) (p : A -> bool) : db (option A) :=
  fun s => (Ok (find p (table s)), s).

(** [db.query(T).all()] *)
Definition query_all {A} (table : Store -> list A) : db (list A) :=
  fun s => (Ok (table s), s).

(** Pending changes followed by [db.commit()]. *)
Definition db_commit `{Storage} (change : Store -> Store) : db unit :=
  fun s =>
    let s' := change s in
    if integrity s' then (Ok tt, s') else (Raise IntegrityError, s).

Definition add_user (u : User) (s : Store) : Store :=
  mkStore (users s ++ [u]) (products s).

Definition add_row (p : Product) (s : Store) : Store :=
  mkStore (users s) (products s ++ [p]).

(** The first row that satisfies [p] is replaced by [new]. *)
Fixpoint replace_first {A} (p : A -> bool) (new : A) (l : list A) : list A :=
  match l with
  | [] => []
  | x :: l' => if p x then new :: l' else x :: replace_first p new l'
  end.

(** The first row that satisfies [p] is removed. *)
Fixpoint remove_first {A} (p : A -> bool) (l : list A) : list A :=
  match l with
  | [] => []
  | x :: l' => if p x then l' else x :: remove_first p l'
  end.

Definition has_id (id : Z) (p : Product) : bool := Product_id p =? id.

Definition update_row (id : Z) (new : Product) (s : Store) : Store :=
  mkStore (users s) (replace_first (has_id id) new (products s)).

Definition delete_row (id : Z) (s : Store) : Store :=
  mkStore (users s) (remove_first (has_id id) (products s)).

(** ** auth.py *)

(** *** Utility functions (lines 41-52) *)

Definition verify_password `{PasswordHasher} (plain_password hashed_password : string)
    : outcome bool :=
  pwd_context_verify plain_password hashed_password.

Definition get_password_hash `{PasswordHasher} (salt password : string) : string :=
  pwd_context_hash salt password.

(** [expires_delta or timedelta(minutes=...)]: [None] and the zero
    [timedelta] are both falsy. *)
Definition or_default (expires_delta : option timedelta) (default : timedelta) : timedelta :=
  match expires_delta with
  | Some d => if d =? 0 then default else d
  | None => default
  end.

(** [to_encode] after [data.copy()] and [update({"exp": expire})] *)
Definition to_encode (data : claims datetime) (expires_delta : option timedelta)
    (utcnow : datetime) : claims datetime :=
  let expire :=
    utcnow + or_default expires_delta (timedelta_minutes ACCESS_TOKEN_EXPIRE_MINUTES) in
  mkClaims (claim_sub data) (claim_is_superuser data) (Some expire).

Definition create_access_token (data : claims datetime) (expires_delta : option timedelta)
    (utcnow : datetime) : token :=
  jwt_encode (to_encode data expires_delta utcnow) SECRET_KEY ALGORITHM.

(** *** DB helpers (lines 55-70) *)

Definition get_user_by_username (username' : string) : db (option User) :=
  query_first users (fun u => String.eqb (username u) username').

Definition create_user `{PasswordHasher} `{Storage} (user_in : UserCreate)
    (is_superuser' : bool) (salt : string) : db User :=
  let hashed := get_password_hash salt (uc_password user_in) in
  fun s =>
    let db_user :=
      mkUser (fresh_user_id (users s)) (uc_username user_in) (uc_email user_in)
             hashed true is_superuser' in
    (_ ← db_commit (add_user db_user); mret db_user) s.

(** *** Authentication dependencies (lines 73-110) *)

Definition authenticate_user `{PasswordHasher} (username' password : string)
    : db (option User) :=
  user ← get_user_by_username username';
  match user with
  | None => mret None
  | Some u =>
      verified ← lift (verify_password password (hashed_password u));
      if negb verified then mret None else mret (Some u)
  end.

Definition credentials_exception : exn :=
  HTTPException 401 "Could not validate credentials" [("WWW-Authenticate", "Bearer")].

(** The [try] block of [get_current_user] (lines 87-95). *)
Definition decode_token_data (t : token) (utcnow : datetime) : outcome TokenData :=
  except_JWTError
    (payload ← jwt_decode t SECRET_KEY [ALGORITHM] utcnow;
     let username' := claim_sub payload in
     let is_super := default false (claim_is_superuser payload) in
     match username' with
     | None => Raise credentials_exception
     | Some _ => Ok (mkTokenData username' (Some is_super))
     end)
    (Raise credentials_exception).

Definition get_current_user (t : token) (utcnow : datetime) : db User :=
  token_data ← lift (decode_token_data t utcnow);
  user ← match td_username token_data with
         | Some u => get_user_by_username u
         | None => mret None      (* no row has a null username *)
         end;
  match user with
  | None => raise credentials_exception
  | Some u => mret u
  end.

Definition get_current_active_user (current_user : User) : outcome User :=
  if negb (is_active current_user) then Raise (HTTPException 400 "Inactive user" [])
  else Ok current_user.

Definition require_admin (current_user : User) : outcome User :=
  if negb (is_superuser current_user)
  then Raise (HTTPException 403 "Admin privileges required" [])
  else Ok current_user.

(** *** Router (lines 115-131) *)

Definition register `{PasswordHasher} `{Storage} (user_in : UserCreate) (salt : string)
    : db User :=
  existing ← get_user_by_username (uc_username user_in);
  match existing with
  | Some _ => raise (HTTPException 400 "Username already registered" [])
  | None => create_user user_in false salt
  end.

(** The body of a successful login: [access_token] and [token_type]. *)
Definition login_for_access_token `{PasswordHasher} (form_username form_password : string)
    (utcnow : datetime) : db (token * string) :=
  user ← authenticate_user form_username form_password;
  match user with
  | None =>
      raise (HTTPException 401 "Incorrect username or password"
                           [("WWW-Authenticate", "Bearer")])
  | Some u =>
      let token_data := mkClaims (Some (username u)) (Some (is_superuser u)) None in
      let access_token := create_access_token token_data None utcnow in
      mret (access_token, "bearer")
  end.

(** *** FastAPI's resolution of [Depends]

    [authorization] is the credentials of an [Authorization: Bearer] header,
    [None] when the request has no such header. [OAuth2PasswordBearer]
    answers 401 without one. *)

Definition oauth2_scheme (authorization : option token) : outcome token :=
  match authorization with
  | Some t => Ok t
  | None => Raise (HTTPException 401 "Not authenticated" [("WWW-Authenticate", "Bearer")])
  end.

Definition Depends_get_current_user (authorization : option token) (utcnow : datetime)
    : db User :=
  t ← lift (oauth2_scheme authorization);
  get_current_user t utcnow.

Definition Depends_require_admin (authorization : option token) (utcnow : datetime)
    : db User :=
  current_user ← Depends_get_current_user authorization utcnow;
  lift (require_admin current_user).

(** The status line FastAPI answers with: the route's own code when the
    handler returns, the code of an [HTTPException], 500 for anything else. *)
Definition status {A} (success : Z) (o : outcome A) : Z :=
  match o with
  | Ok _ => success
  | Raise (HTTPException code _ _) => code
  | Raise _ => 500
  end.

(** ** product_apiroute.py *)

(** What a product handler returns. *)
Inductive content :=
| a_product (p : Product)
| a_list (ps : list Product)
| a_str (s : string)
| an_error (msg : string).      (* the dict with the one key [error] *)

Definition get_products : db content :=
  products' ← query_all products;
  mret (a_list products').

Definition get_product_by_id (id : Z) : db content :=
  product ← query_first products (has_id id);
  match product with
  | Some p => mret (a_product p)
  | None => mret (a_str "Product not found!!")
  end.

Definition add_product_denied : content :=
  an_error "Admin privileges required to add a product.".
Definition update_product_denied : content :=
  an_error "Admin privileges required to update a product.".
Definition delete_product_denied : content :=
  an_error "Admin privileges required to delete a product.".

Definition add_product `{Storage} (product : Product) (current_user : User) : db content :=
  if is_superuser current_user then
    _ ← db_commit (add_row product);
    mret (a_product product)
  else mret add_product_denied.

Definition update_product `{Storage} (id : Z) (updated_product : Product)
    (current_user : User) : db content :=
  if negb (is_superuser current_user) then mret update_product_denied
  else
    product ← query_first products (has_id id);
    match product with
    | Some _ =>
        _ ← db_commit (update_row id updated_product);
        mret (a_str "Product Updated Successfully!!")
    | None => mret (an_error "Product not found!!")
    end.

Definition delete_product `{Storage} (id : Z) (current_user : User) : db content :=
  if negb (is_superuser current_user) then mret delete_product_denied
  else
    db_product ← query_first products (has_id id);
    match db_product with
    | Some _ =>
        _ ← db_commit (delete_row id);
        mret (a_str "Product deleted successfully!!")
    | None => mret (a_str "Product not found!!")
    end.

(** *** The routes, with their dependencies resolved first *)

Definition route_get_products (authorization : option token) : db content :=
  get_products.

Definition route_get_product_by_id (authorization : option token) (id : Z) : db content :=
  get_product_by_id id.

Definition route_add_product `{Storage} (authorization : option token) (utcnow : datetime)
    (product : Product) : db content :=
  current_user ← Depends_require_admin authorization utcnow;
  add_product product current_user.

Definition route_update_product `{Storage} (authorization : option token)
    (utcnow : datetime) (id : Z) (updated_product : Product) : db content :=
  current_user ← Depends_require_admin authorization utcnow;
  update_product id updated_product current_user.

Definition route_delete_product `{Storage} (authorization : option token)
    (utcnow : datetime) (id : Z) : db content :=
  current_user ← Depends_require_admin authorization utcnow;
  delete_product id current_user.

(** ** The remaining routes and the seeding *)

(** [auth.py], lines 102-105 and 133-141: the two example routes and the
    dependency of the first. *)

Definition Depends_get_current_active_user (authorization : option token)
    (utcnow : datetime) : db User :=
  current_user ← Depends_get_current_user authorization utcnow;
  lift (get_current_active_user current_user).

Definition read_users_me (current_user : User) : User := current_user.

Definition route_read_users_me (authorization : option token) (utcnow : datetime)
    : db User :=
  current_user ← Depends_get_current_active_user authorization utcnow;
  mret (read_users_me current_user).

(** The text under the key [msg]. *)
Definition admin_only_route (current_user : User) : string :=
  ("Hello " ++ username current_user ++ ", you are an admin.")%string.

Definition route_admin_only_route (authorization : option token) (utcnow : datetime)
    : db string :=
  current_user ← Depends_require_admin authorization utcnow;
  mret (admin_only_route current_user).

(** [db.query(T).count()] *)
Definition query_count {A} (table : Store -> list A) : db Z :=
  fun s => (Ok (Z.of_nat (length (table s))), s).

Definition add_rows (ps : list Product) (s : Store) : Store :=
  fold_left (fun s' p => add_row p s') ps s.

(** [product_apiroute.py], lines 13-21: [init_db], run when the module is
    imported. [default_products] is the list [default_data.products], which
    is not among the sources. The rows are added only to an empty table; the
    commit is unconditional. *)
Definition init_db `{Storage} (default_products : list Product) : db unit :=
  count ← query_count products;
  let pending := if count =? 0 then default_products else [] in
  db_commit (add_rows pending).

(** [product_apiroute.py], lines 23-25 *)
Definition greet : string := "Welcome to Python".

(** ** The same flow at the boundary of the process

    Above, a username is a string the database driver takes as a query
    parameter, a claim has the type the code annotates it with, a signing
    key is told from another by equality and time is unbounded. [Wire]
    embeds the same functions of [auth.py] without those conventions:
    - the driver's adaptation of a [str] parameter may raise (psycopg2
      refuses a string that contains a NUL character with [ValueError]);
    - the [is_superuser] claim of a payload is any JSON value, and
      [TokenData(...)] validates it (pydantic raises [ValidationError],
      which is no [JWTError]);
    - HMAC pads a key of up to 64 bytes with NUL bytes, so keys that differ
      only by trailing NUL bytes sign alike;
    - [datetime + timedelta] raises [OverflowError] outside the years 1 to
      9999.
    A payload holds the claims [sub] (a string), [is_superuser] and [exp]
    (an integer), each of which may be absent. *)

Module Wire.

#[local] Unset Elimination Schemes.
Inductive json :=
| JNull
| JBool (b : bool)
| JInt (n : Z)
| JFloat (x : float)
| JStr (s : string)
| JArray (items : list json)
| JObject (members : list (string * json)).
#[local] Set Elimination Schemes.

Record claims (T : Type) := mkClaims {
  claim_sub : option string;
  claim_is_superuser : option json;
  claim_exp : option T
}.
Arguments mkClaims {T} _ _ _.
Arguments claim_sub {T} _.
Arguments claim_is_superuser {T} _.
Arguments claim_exp {T} _.

Inductive token :=
| JWS (alg : string) (key : string) (payload : claims Z)
| NotJWS (raw : string).

(** The two collaborators whose refusals reach the caller: the driver's
    adaptation of a string parameter, and the validation that
    [TokenData(username=..., is_superuser=...)] runs on the claim. *)
Class Boundary := {
  adapt_str : string -> outcome unit;
  TokenData_validate : string -> json -> outcome (option bool)
}.

Definition is_NUL (c : ascii) : bool := Ascii.eqb c Ascii.zero.

Fixpoint has_NUL (s : string) : bool :=
  match s with
  | EmptyString => false
  | String c rest => is_NUL c || has_NUL rest
  end.

Fixpoint strip_trailing_NUL (s : string) : string :=
  match s with
  | EmptyString => EmptyString
  | String c rest =>
      match strip_trailing_NUL rest with
      | EmptyString => if is_NUL c then EmptyString else String c EmptyString
      | rest' => String c rest'
      end
  end.

(** The key HMAC-SHA256 works with: a key of up to 64 bytes padded with NUL
    bytes (here: its trailing NUL bytes dropped), a longer key replaced by
    its digest (here: the key itself, tagged). A digest is 32 bytes, so it
    pads to [SECRET_KEY] only if bytes 33 to 42 of [SECRET_KEY] were NUL. *)
Definition hmac_key (key : string) : bool * string :=
  if (String.length key <=? 64)%nat then (false, strip_trailing_NUL key)
  else (true, key).

Definition same_hmac_key (k1 k2 : string) : bool :=
  Bool.eqb (fst (hmac_key k1)) (fst (hmac_key k2))
  && String.eqb (snd (hmac_key k1)) (snd (hmac_key k2)).

Definition datetime_min : datetime := -62135596800 * 1000000.
Definition datetime_max : datetime := 253402300799 * 1000000 + 999999.

Definition datetime_in_range (t : datetime) : bool :=
  (datetime_min <=? t) && (t <=? datetime_max).

(** [t + d] on a [datetime] *)
Definition datetime_add (t : datetime) (d : timedelta) : outcome datetime :=
  if datetime_in_range (t + d) then Ok (t + d)
  else Raise (OtherError "OverflowError").

Definition jwt_encode (to_encode : claims datetime) (key algorithm : string) : token :=
  JWS algorithm key
      (mkClaims (claim_sub to_encode) (claim_is_superuser to_encode)
                (timegm <$> claim_exp to_encode)).

Definition jwt_decode (t : token) (key : string) (algorithms : list string)
    (utcnow : datetime) : outcome (claims Z) :=
  match t with
  | NotJWS _ => Raise (JWTError JWTError_base)
  | JWS alg k payload =>
      if negb (existsb (String.eqb alg) algorithms) then Raise (JWTError JWTError_base)
      else if negb (same_hmac_key k key) then Raise (JWTError JWTError_base)
      else match claim_exp payload with
           | Some exp =>
               if exp <? timegm utcnow then Raise (JWTError ExpiredSignatureError)
               else Ok payload
           | None => Ok payload
           end
  end.

(** [auth.py], lines 48-52 *)
Definition create_access_token (data : claims datetime) (expires_delta : option timedelta)
    (utcnow : datetime) : outcome token :=
  expire ← datetime_add utcnow
             (or_default expires_delta (timedelta_minutes ACCESS_TOKEN_EXPIRE_MINUTES));
  let to_encode := mkClaims (claim_sub data) (claim_is_superuser data) (Some expire) in
  Ok (jwt_encode to_encode SECRET_KEY ALGORITHM).

(** lines 55-56 *)
Definition get_user_by_username `{Boundary} (username' : string) : db (option User) :=
  _ ← lift (adapt_str username');
  query_first users (fun u => String.eqb (username u) username').

(** lines 73-79 *)
Definition authenticate_user `{Boundary} `{PasswordHasher} (username' password : string)
    : db (option User) :=
  user ← get_user_by_username username';
  match user with
  | None => mret None
  | Some u =>
      verified ← lift (verify_password password (hashed_password u));
      if negb verified then mret None else mret (Some u)
  end.

(** The [try] block of [get_current_user], lines 87-95. *)
Definition decode_token_data `{Boundary} (t : token) (utcnow : datetime)
    : outcome TokenData :=
  except_JWTError
    (payload ← jwt_decode t SECRET_KEY [ALGORITHM] utcnow;
     let username' := claim_sub payload in
     let is_super := default (JBool false) (claim_is_superuser payload) in
     match username' with
     | None => Raise credentials_exception
     | Some u =>
         validated ← TokenData_validate u is_super;
         Ok (mkTokenData (Some u) validated)
     end)
    (Raise credentials_exception).

(** lines 81-100 *)
Definition get_current_user `{Boundary} (t : token) (utcnow : datetime) : db User :=
  token_data ← lift (decode_token_data t utcnow);
  user ← match td_username token_data with
         | Some u => get_user_by_username u
         | None => mret None
         end;
  match user with
  | None => raise credentials_exception
  | Some u => mret u
  end.

(** lines 123-131 *)
Definition login_for_access_token `{Boundary} `{PasswordHasher}
    (form_username form_password : string) (utcnow : datetime) : db (token * string) :=
  user ← authenticate_user form_username form_password;
  match user with
  | None =>
      raise (HTTPException 401 "Incorrect username or password"
                           [("WWW-Authenticate", "Bearer")])
  | Some u =>
      let token_data :=
        mkClaims (Some (username u)) (Some (JBool (is_superuser u))) None in
      access_token ← lift (create_access_token token_data None utcnow);
      mret (access_token, "bearer")
  end.

Definition oauth2_scheme (authorization : option token) : outcome token :=
  match authorization with
  | Some t => Ok t
  | None => Raise (HTTPException 401 "Not authenticated" [("WWW-Authenticate", "Bearer")])
  end.

Definition Depends_get_current_user `{Boundary} (authorization : option token)
    (utcnow : datetime) : db User :=
  t ← lift (oauth2_scheme authorization);
  get_current_user t utcnow.

Definition Depends_require_admin `{Boundary} (authorization : option token)
    (utcnow : datetime) : db User :=
  current_user ← Depends_get_current_user authorization utcnow;
  lift (require_admin current_user).

(** The write routes of [product_apiroute.py] behind this guard. *)
Definition route_add_product `{Boundary} `{Storage} (authorization : option token)
    (utcnow : datetime) (product : Product) : db content :=
  current_user ← Depends_require_admin authorization utcnow;
  add_product product current_user.

Definition route_update_product `{Boundary} `{Storage} (authorization : option token)
    (utcnow : datetime) (id : Z) (updated_product : Product) : db content :=
  current_user ← Depends_require_admin authorization utcnow;
  update_product id updated_product current_user.

Definition route_delete_product `{Boundary} `{Storage} (authorization : option token)
    (utcnow : datetime) (id : Z) : db content :=
  current_user ← Depends_require_admin authorization utcnow;
  delete_product id current_user.

End Wire.

(** ** Test doubles and sample data, to run the model on concrete requests *)

(** A hasher that keeps the secret in clear behind an argon2 prefix. *)
Definition plain_hasher : PasswordHasher := {|
  argon2_verify secret hash :=
    match strip_prefix "$argon2id$" hash with
    | Some h => Ok (String.eqb h secret)
    | None => Raise (OtherError "MalformedHashError")
    end;
  argon2_hash salt secret := "$argon2id$" ++ secret
|}.

Fixpoint distinct {A} (eqb : A -> A -> bool) (l : list A) : bool :=
  match l with
  | [] => true
  | x :: l' => negb (existsb (eqb x) l') && distinct eqb l'
  end.

(** Unique usernames, unique product ids, ids numbered from the row count. *)
Definition unique_keys : Storage := {|
  integrity s :=
    distinct String.eqb (map username (users s))
    && distinct Z.eqb (map Product_id (products s));
  fresh_user_id l := Z.of_nat (length l) + 1
|}.

Definition alice : User :=
  mkUser 1 "alice" None "$argon2id$pw123" true false.
Definition root : User :=
  mkUser 2 "root" (Some "root@example.org") "$argon2id$s3cret" true true.
Definition widget : Product := mkProduct 7 "widget" "a widget" 9.5%float 3.
Definition gadget : Product := mkProduct 8 "gadget" "a gadget" 20%float 1.
Definition shop : Store := mkStore [alice; root] [widget].

Definition one_second : Z := 1000000.
Definition alice_token : token :=
  create_access_token (mkClaims (Some "alice") (Some false) None) None 0.
Definition root_token : token :=
  create_access_token (mkClaims (Some "root") (Some true) None) None 0.
(** A token for alice that claims the admin role. *)
Definition alice_admin_token : token :=
  create_access_token (mkClaims (Some "alice") (Some true) None) None 0.
(** A well-signed token whose subject is not in [shop]. *)
Definition ghost_token : token :=
  create_access_token (mkClaims (Some "ghost") (Some true) None) None 0.

(** An admin whose account is not active, a user whose stored hash is not
    an argon2 hash, and a store that holds them. *)
Definition dormant : User :=
  mkUser 3 "dormant" None "$argon2id$zzz" false true.
Definition legacy : User :=
  mkUser 4 "legacy" None "5f4dcc3b5aa765d61d8327deb882cf99" true false.
Definition depot : Store := mkStore [alice; root; dormant; legacy] [widget; gadget].
Definition dormant_token : token :=
  create_access_token (mkClaims (Some "dormant") (Some true) None) None 0.
Definition carol_in : UserCreate := mkUserCreate "carol" (Some "carol@example.org") "hunter2".
Definition carol : User :=
  mkUser 3 "carol" (Some "carol@example.org") "$argon2id$hunter2" true false.
(** alice after a promotion made directly in the store. *)
Definition alice_promoted : User :=
  mkUser 1 "alice" None "$argon2id$pw123" true true.
Definition shop_promoted : Store := mkStore [alice_promoted; root] [widget].
Definition widget_v2 : Product := mkProduct 7 "widget" "a better widget" 11%float 5.
Definition widget_moved : Product := mkProduct 9 "widget" "a widget" 9.5%float 3.

(** A store edited by hand: every user's active flag set to [flag]. *)
Definition with_is_active (flag : User -> bool) (u : User) : User :=
  mkUser (User_id u) (username u) (email u) (hashed_password u) (flag u)
         (is_superuser u).
Definition set_is_active (flag : User -> bool) (s : Store) : Store :=
  mkStore (map (with_is_active flag) (users s)) (products s).

(** The driver and the validator as psycopg2 and pydantic behave: a string
    with a NUL character is refused; an optional boolean is null, a
    boolean, the integers and floats 0 and 1, or one of the strings
    pydantic reads as a boolean, whatever their case. *)
Definition to_lower (c : ascii) : ascii :=
  let n := nat_of_ascii c in
  if ((65 <=? n) && (n <=? 90))%nat then ascii_of_nat (n + 32) else c.

Fixpoint lower (s : string) : string :=
  match s with
  | EmptyString => EmptyString
  | String c rest => String (to_lower c) (lower rest)
  end.

Definition str_as_bool (s : string) : outcome (option bool) :=
  if String.eqb s "0"
     || existsb (String.eqb (lower s)) ["f"; "n"; "no"; "off"; "false"]
  then Ok (Some false)
  else if String.eqb s "1"
          || existsb (String.eqb (lower s)) ["t"; "y"; "on"; "yes"; "true"]
  then Ok (Some true)
  else Raise (OtherError "ValidationError").

Definition psycopg2_pydantic : Wire.Boundary := {|
  Wire.adapt_str s :=
    if Wire.has_NUL s then Raise (OtherError "ValueError") else Ok tt;
  Wire.TokenData_validate _ v :=
    match v with
    | Wire.JNull => Ok None
    | Wire.JBool b => Ok (Some b)
    | Wire.JInt 0 => Ok (Some false)
    | Wire.JInt 1 => Ok (Some true)
    | Wire.JFloat x =>
        if PrimFloat.eqb x 0%float then Ok (Some false)
        else if PrimFloat.eqb x 1%float then Ok (Some true)
        else Raise (OtherError "ValidationError")
    | Wire.JStr s => str_as_bool s
    | _ => Raise (OtherError "ValidationError")
    end
|}.

(** A username with a NUL character in it. *)
Definition nul_name : string := String "g" (String Ascii.zero "host").

Definition wire_token (sub : string) (is_super : Wire.json) : Wire.token :=
  Wire.JWS ALGORITHM SECRET_KEY (Wire.mkClaims (Some sub) (Some is_super) (Some 3600)).

(** [SECRET_KEY] followed by one NUL byte. *)
Definition padded_key : string := (SECRET_KEY ++ String Ascii.zero "")%string.

(** * Properties *)

(** ** Running the monads *)

Lemma get_user_by_username_run (u : string) (s : Store) :
  get_user_by_username u s
  = (Ok (find (fun x => String.eqb (username x) u) (users s)), s).
Proof. reflexivity. Qed.

Lemma find_username_Some (u : string) (l : list User) (usr : User) :
  find (fun x => String.eqb (username x) u) l = Some usr ->
  In usr l /\ username usr = u.
Proof.
  intros Hf. apply find_some in Hf as [Hin Heq].
  split; [exact Hin | now apply String.eqb_eq].
Qed.

Lemma find_username_None (u : string) (l : list User) :
  find (fun x => String.eqb (username x) u) l = None <->
  (forall usr, In usr l -> username usr <> u).
Proof.
  split.
  - intros Hf usr Hin Heq.
    pose proof (find_none _ _ Hf usr Hin) as Hb. simpl in Hb.
    apply String.eqb_neq in Hb. contradiction.
  - intros Hall. induction l as [|x l IH]; [reflexivity|].
    simpl. destruct (String.eqb (username x) u) eqn:E.
    + apply String.eqb_eq in E. exfalso. apply (Hall x); [now left | exact E].
    + apply IH. intros usr Hin. apply Hall. now right.
Qed.

Lemma find_has_id_None (id : Z) (l : list Product) :
  (forall p, In p l -> Product_id p <> id) -> find (has_id id) l = None.
Proof.
  intros Hall. induction l as [|x l IH]; [reflexivity|].
  simpl. unfold has_id at 1. destruct (Product_id x =? id) eqn:E.
  - apply Z.eqb_eq in E. exfalso. apply (Hall x); [now left | exact E].
  - apply IH. intros p Hin. apply Hall. now right.
Qed.

(** [jwt.decode] raises nothing but a [JWTError]. *)
Lemma jwt_decode_raises (t : token) (key : string) (algs : list string)
    (now : datetime) (e : exn) :
  jwt_decode t key algs now = Raise e -> exists k, e = JWTError k.
Proof.
  unfold jwt_decode. intros H.
  repeat case_match; simplify_eq; eauto.
Qed.

(** A payload [jwt.decode] returns is the token's, well signed and not past
    its expiry. *)
Lemma jwt_decode_Ok (t : token) (now : datetime) (payload : claims Z) :
  jwt_decode t SECRET_KEY [ALGORITHM] now = Ok payload ->
  t = JWS ALGORITHM SECRET_KEY payload
  /\ (forall exp, claim_exp payload = Some exp -> timegm now <= exp).
Proof.
  unfold jwt_decode. intros H.
  destruct t as [alg k p|raw]; [|discriminate].
  destruct (existsb (String.eqb alg) [ALGORITHM]) eqn:Ealg; simpl in H; [|discriminate].
  destruct (String.eqb k SECRET_KEY) eqn:Ek; simpl in H; [|discriminate].
  simpl in Ealg. rewrite orb_false_r in Ealg.
  apply String.eqb_eq in Ealg, Ek. subst alg k.
  destruct (claim_exp p) as [exp|] eqn:Eexp.
  - destruct (exp <? timegm now) eqn:Elt; [discriminate|].
    injection H as <-. split; [reflexivity|].
    intros exp' Hexp'. rewrite Eexp in Hexp'. injection Hexp' as <-.
    apply Z.ltb_ge in Elt. exact Elt.
  - injection H as <-. split; [reflexivity|]. intros exp' Hexp'.
    rewrite Eexp in Hexp'. discriminate.
Qed.

Lemma decode_token_data_Ok (t : token) (now : datetime) (td : TokenData) :
  decode_token_data t now = Ok td ->
  exists payload u,
    jwt_decode t SECRET_KEY [ALGORITHM] now = Ok payload
    /\ claim_sub payload = Some u
    /\ td = mkTokenData (Some u) (Some (default false (claim_is_superuser payload))).
Proof.
  unfold decode_token_data. intros H.
  destruct (jwt_decode t SECRET_KEY [ALGORITHM] now) as [payload|e] eqn:Ed.
  - simpl in H. destruct (claim_sub payload) as [u|] eqn:Esub; simpl in H.
    + injection H as <-. exists payload, u. auto.
    + discriminate.
  - apply jwt_decode_raises in Ed as Hk. destruct Hk as [k ->]. simpl in H.
    discriminate.
Qed.

(** Whatever goes wrong in the [try] block, the caller sees
    [credentials_exception]. *)
Lemma decode_token_data_Raise (t : token) (now : datetime) (e : exn) :
  decode_token_data t now = Raise e -> e = credentials_exception.
Proof.
  unfold decode_token_data. intros H.
  destruct (jwt_decode t SECRET_KEY [ALGORITHM] now) as [payload|e'] eqn:Ed.
  - simpl in H. destruct (claim_sub payload); simpl in H; congruence.
  - apply jwt_decode_raises in Ed as Hk. destruct Hk as [k ->]. simpl in H.
    congruence.
Qed.

Lemma get_current_user_unfold (t : token) (now : datetime) (s : Store) :
  get_current_user t now s =
  match decode_token_data t now with
  | Ok td =>
      match td_username td with
      | Some u =>
          match find (fun x => String.eqb (username x) u) (users s) with
          | Some usr => (Ok usr, s)
          | None => (Raise credentials_exception, s)
          end
      | None => (Raise credentials_exception, s)
      end
  | Raise e => (Raise e, s)
  end.
Proof.
  unfold get_current_user, mbind, db_bind, lift.
  destruct (decode_token_data t now) as [td|e]; [|reflexivity].
  destruct (td_username td) as [u|].
  - rewrite get_user_by_username_run.
    destruct (find _ (users s)); reflexivity.
  - reflexivity.
Qed.

Lemma get_current_user_Ok (t : token) (now : datetime) (s s' : Store) (usr : User) :
  get_current_user t now s = (Ok usr, s') ->
  s' = s
  /\ exists payload,
       jwt_decode t SECRET_KEY [ALGORITHM] now = Ok payload
       /\ claim_sub payload = Some (username usr)
       /\ find (fun x => String.eqb (username x) (username usr)) (users s) = Some usr.
Proof.
  rewrite get_current_user_unfold. intros H.
  destruct (decode_token_data t now) as [td|e] eqn:Ed; [|discriminate].
  apply decode_token_data_Ok in Ed as (payload & u & Hdec & Hsub & ->).
  simpl in H.
  destruct (find _ (users s)) as [usr'|] eqn:Ef; [|discriminate].
  injection H as -> ->.
  apply find_username_Some in Ef as Hu. destruct Hu as [_ <-].
  split; [reflexivity|]. exists payload. auto.
Qed.

Lemma get_current_user_Raise (t : token) (now : datetime) (s s' : Store) (e : exn) :
  get_current_user t now s = (Raise e, s') ->
  e = credentials_exception /\ s' = s.
Proof.
  rewrite get_current_user_unfold. intros H.
  destruct (decode_token_data t now) as [td|e'] eqn:Ed.
  - destruct (td_username td); [destruct (find _ (users s))|]; simplify_eq; auto.
  - apply decode_token_data_Raise in Ed. simplify_eq. auto.
Qed.

(** The guard of the write routes returns a user only for a bearer token
    that resolves to a stored admin, and never touches the store. *)
Lemma Depends_require_admin_Ok (auth : option token) (now : datetime)
    (s s' : Store) (usr : User) :
  Depends_require_admin auth now s = (Ok usr, s') ->
  s' = s
  /\ exists t,
       auth = Some t
       /\ get_current_user t now s = (Ok usr, s)
       /\ is_superuser usr = true.
Proof.
  unfold Depends_require_admin, Depends_get_current_user, mbind, db_bind, lift.
  destruct auth as [t|]; simpl; [|discriminate].
  destruct (get_current_user t now s) as [[u|e] s1] eqn:Eg; [|discriminate].
  apply get_current_user_Ok in Eg as Hs. destruct Hs as [-> _].
  unfold require_admin. destruct (is_superuser u) eqn:Eadm; simpl; [|discriminate].
  intros H. injection H as -> ->. split; [reflexivity|]. exists t. auto.
Qed.

Lemma Depends_require_admin_state (auth : option token) (now : datetime) (s : Store) :
  snd (Depends_require_admin auth now s) = s.
Proof.
  unfold Depends_require_admin, Depends_get_current_user, mbind, db_bind, lift.
  destruct auth as [t|]; simpl; [|reflexivity].
  destruct (get_current_user t now s) as [[u|e] s1] eqn:Eg.
  - apply get_current_user_Ok in Eg as [-> _]. reflexivity.
  - apply get_current_user_Raise in Eg as [_ ->]. reflexivity.
Qed.

(** A caller resolved to a stored user without the admin flag is turned
    away with 403 before any handler runs. *)
Lemma Depends_require_admin_forbidden (t : token) (now : datetime) (s : Store)
    (usr : User) :
  get_current_user t now s = (Ok usr, s) ->
  is_superuser usr = false ->
  Depends_require_admin (Some t) now s
  = (Raise (HTTPException 403 "Admin privileges required" []), s).
Proof.
  intros Hg Hadm.
  unfold Depends_require_admin, Depends_get_current_user, mbind, db_bind, lift.
  simpl. rewrite Hg. unfold require_admin. rewrite Hadm. reflexivity.
Qed.

(** A route whose handler runs behind the admin guard. *)
Lemma guarded_route {A} (handler : User -> db A) (auth : option token)
    (now : datetime) (s : Store) :
  (Depends_require_admin auth now ≫= handler) s =
  match Depends_require_admin auth now s with
  | (Ok usr, _) => handler usr s
  | (Raise e, _) => (Raise e, s)
  end.
Proof.
  pose proof (Depends_require_admin_state auth now s) as Hs.
  unfold mbind at 1. unfold db_bind.
  destruct (Depends_require_admin auth now s) as [[usr|e] s1].
  - simpl in Hs. now subst s1.
  - simpl in Hs. now subst s1.
Qed.

Lemma authenticate_user_unfold `{PasswordHasher} (u p : string) (s : Store) :
  authenticate_user u p s =
  match find (fun x => String.eqb (username x) u) (users s) with
  | None => (Ok None, s)
  | Some usr =>
      match verify_password p (hashed_password usr) with
      | Ok true => (Ok (Some usr), s)
      | Ok false => (Ok None, s)
      | Raise e => (Raise e, s)
      end
  end.
Proof.
  unfold authenticate_user, mbind, db_bind, lift.
  rewrite get_user_by_username_run.
  destruct (find _ (users s)) as [usr|]; [|reflexivity].
  destruct (verify_password p (hashed_password usr)) as [[|]|e]; reflexivity.
Qed.

Lemma login_for_access_token_unfold `{PasswordHasher} (u p : string)
    (now : datetime) (s : Store) :
  login_for_access_token u p now s =
  match authenticate_user u p s with
  | (Ok (Some usr), s') =>
      (Ok (create_access_token
             (mkClaims (Some (username usr)) (Some (is_superuser usr)) None) None now,
           "bearer"), s')
  | (Ok None, s') =>
      (Raise (HTTPException 401 "Incorrect username or password"
                            [("WWW-Authenticate", "Bearer")]), s')
  | (Raise e, s') => (Raise e, s')
  end.
Proof.
  unfold login_for_access_token. unfold mbind at 1. unfold db_bind.
  destruct (authenticate_user u p s) as [[[usr|]|e] s']; reflexivity.
Qed.

Lemma timegm_after_minutes (now : datetime) (m : Z) :
  timegm (now + timedelta_minutes m) = timegm now + m * 60.
Proof.
  unfold timegm, timedelta_minutes.
  replace (now + m * 60 * 1000000) with (now + (m * 60) * 1000000) by lia.
  apply Z.div_add. lia.
Qed.

(** ** Password verification *)

(** C2, as amended: [verify_password] has no handler of its own, so for
    every plaintext and every second argument that passlib does not
    recognise as an argon2 hash it raises [UnknownHashError]; it does not
    return false. *)
Theorem verify_password_unidentified `{PasswordHasher} (plain hashed : string) :
  argon2_identify hashed = false ->
  verify_password plain hashed = Raise UnknownHashError.
Proof.
  intros Hid. unfold verify_password, pwd_context_verify. now rewrite Hid.
Qed.

Lemma verify_password_unidentified_witness :
  argon2_identify "" = false
  /\ @verify_password plain_hasher "" "" = Raise UnknownHashError.
Proof.
  split; [reflexivity|].
  apply (@verify_password_unidentified plain_hasher "" ""). reflexivity.
Defined.

(** C2, as stated, fails: on the malformed hash [not-a-hash]
    [verify_password] raises instead of returning false. *)
Lemma verify_password_malformed_hash_raises :
  @verify_password plain_hasher "pw123" "not-a-hash" = Raise UnknownHashError.
Proof. reflexivity. Qed.

(** ** Tokens *)

(** C3, as amended: a token issued for [u] and [adm] at [issued] verifies to
    the same subject and admin flag at every time whose whole seconds do
    not exceed the token's [exp] (so also at the expiry instant and during
    that second), and fails with [credentials_exception] (401) at every
    later time. *)
Theorem issue_then_verify (u : string) (adm : bool) (issued now : datetime) :
  decode_token_data
    (create_access_token (mkClaims (Some u) (Some adm) None) None issued) now
  = if timegm now <=? timegm (issued + timedelta_minutes ACCESS_TOKEN_EXPIRE_MINUTES)
    then Ok (mkTokenData (Some u) (Some adm))
    else Raise credentials_exception.
Proof.
  unfold decode_token_data, create_access_token, to_encode, jwt_encode, jwt_decode.
  cbn [or_default claim_sub claim_is_superuser claim_exp fmap option_fmap option_map].
  replace (existsb (String.eqb ALGORITHM) [ALGORITHM]) with true by reflexivity.
  replace (String.eqb SECRET_KEY SECRET_KEY) with true by reflexivity.
  cbn [negb].
  set (exp := timegm (issued + timedelta_minutes ACCESS_TOKEN_EXPIRE_MINUTES)).
  destruct (exp <? timegm now) eqn:Elt.
  - apply Z.ltb_lt in Elt.
    destruct (timegm now <=? exp) eqn:Ele; [apply Z.leb_le in Ele; lia|].
    reflexivity.
  - apply Z.ltb_ge in Elt.
    destruct (timegm now <=? exp) eqn:Ele; [|apply Z.leb_gt in Ele; lia].
    reflexivity.
Qed.

(** C3, as stated, fails at the boundary: alice's token, issued at time 0,
    expires at second 3600 and still verifies at exactly that time. *)
Lemma token_accepted_at_expiry :
  alice_token
  = JWS ALGORITHM SECRET_KEY (mkClaims (Some "alice") (Some false) (Some 3600))
  /\ decode_token_data alice_token (3600 * one_second)
     = Ok (mkTokenData (Some "alice") (Some false)).
Proof. split; reflexivity. Qed.



(** ** Authentication and registration *)

(** C5: when a user with the username is already stored, registering the
    username again raises the 400 "Username already registered" and the
    store is returned as it was: the stored record is untouched and no
    second user is created. *)
Theorem register_duplicate_username `{PasswordHasher} `{Storage}
    (user_in : UserCreate) (salt : string) (s : Store) :
  (exists stored, In stored (users s) /\ username stored = uc_username user_in) ->
  register user_in salt s
  = (Raise (HTTPException 400 "Username already registered" []), s)
  /\ status 201 (fst (register user_in salt s)) = 400
  /\ users (snd (register user_in salt s)) = users s.
Proof.
  intros (stored & Hin & Hname).
  assert (Hreg : register user_in salt s
                 = (Raise (HTTPException 400 "Username already registered" []), s)).
  { unfold register. unfold mbind at 1. unfold db_bind.
    rewrite get_user_by_username_run.
    destruct (find _ (users s)) as [existing|] eqn:Ef; [reflexivity|].
    exfalso. apply find_username_None with (usr := stored) in Ef; auto. }
  rewrite Hreg. auto.
Qed.

Lemma register_duplicate_username_witness :
  (exists stored, In stored (users shop) /\ username stored = "alice")
  /\ @register plain_hasher unique_keys (mkUserCreate "alice" None "other") "salt" shop
     = (Raise (HTTPException 400 "Username already registered" []), shop).
Proof.
  assert (Hex : exists stored, In stored (users shop) /\ username stored = "alice").
  { exists alice. split; [now left | reflexivity]. }
  split; [exact Hex|].
  exact (proj1 (@register_duplicate_username plain_hasher unique_keys
                  (mkUserCreate "alice" None "other") "salt" shop Hex)).
Defined.

(** ** The authorized product router *)

(** A guarded route returns or writes only if the guard let an admin in. *)
Lemma guarded_route_effect {A} (handler : User -> db A) (auth : option token)
    (now : datetime) (s s' : Store) (o : outcome A) :
  (Depends_require_admin auth now ≫= handler) s = (o, s') ->
  s' <> s \/ (exists a, o = Ok a) ->
  exists t usr,
    auth = Some t
    /\ get_current_user t now s = (Ok usr, s)
    /\ In usr (users s)
    /\ is_superuser usr = true.
Proof.
  rewrite guarded_route.
  destruct (Depends_require_admin auth now s) as [[usr|e] s1] eqn:Eg.
  - intros _ _. apply Depends_require_admin_Ok in Eg as (_ & t & -> & Hg & Hadm).
    exists t, usr. repeat split; try assumption.
    apply get_current_user_Ok in Hg as (_ & _ & _ & _ & Hf).
    now apply find_username_Some in Hf.
  - intros Hr [Hs|[a Ha]]; simplify_eq.
Qed.

(** C1: on the authorized router a write (create, update, delete) returns,
    or changes the store, only when the bearer token resolves to a stored
    user whose admin flag is true; a caller resolved to a user without the
    flag gets 403 from each write and the store stays as it was; the two
    reads return for every caller, with or without credentials. *)
Theorem writes_need_admin_reads_open `{Storage} (auth : option token)
    (now : datetime) (s : Store) :
  (forall product id updated o s',
     route_add_product auth now product s = (o, s')
     \/ route_update_product auth now id updated s = (o, s')
     \/ route_delete_product auth now id s = (o, s') ->
     s' <> s \/ (exists c, o = Ok c) ->
     exists t usr,
       auth = Some t
       /\ get_current_user t now s = (Ok usr, s)
       /\ In usr (users s)
       /\ is_superuser usr = true)
  /\ (forall t usr product id updated,
        auth = Some t ->
        get_current_user t now s = (Ok usr, s) ->
        is_superuser usr = false ->
        let forbidden := HTTPException 403 "Admin privileges required" [] in
        route_add_product auth now product s = (Raise forbidden, s)
        /\ route_update_product auth now id updated s = (Raise forbidden, s)
        /\ route_delete_product auth now id s = (Raise forbidden, s)
        /\ status 200 (Raise (A:=content) forbidden) = 403)
  /\ (forall id,
        route_get_products auth s = (Ok (a_list (products s)), s)
        /\ exists c, route_get_product_by_id auth id s = (Ok c, s)).
Proof.
  split; [|split].
  - intros product id updated o s' Hroute Heffect.
    destruct Hroute as [Hr|[Hr|Hr]];
      eapply guarded_route_effect; [exact Hr | exact Heffect
                                   | exact Hr | exact Heffect
                                   | exact Hr | exact Heffect].
  - intros t usr product id updated -> Hg Hadm forbidden.
    pose proof (Depends_require_admin_forbidden t now s usr Hg Hadm) as Hguard.
    unfold route_add_product, route_update_product, route_delete_product.
    rewrite !guarded_route, Hguard. auto.
  - intros id. split; [reflexivity|].
    unfold route_get_product_by_id, get_product_by_id, mbind, db_bind, query_first.
    destruct (find (has_id id) (products s)) as [p|]; eauto.
Qed.

Lemma writes_need_admin_reads_open_witness :
  (@route_add_product unique_keys (Some alice_token) 0 gadget shop
   = (Raise (HTTPException 403 "Admin privileges required" []), shop)
   /\ @route_update_product unique_keys (Some alice_token) 0 7 gadget shop
      = (Raise (HTTPException 403 "Admin privileges required" []), shop)
   /\ @route_delete_product unique_keys (Some alice_token) 0 7 shop
      = (Raise (HTTPException 403 "Admin privileges required" []), shop)
   /\ status 200 (Raise (A:=content) (HTTPException 403 "Admin privileges required" []))
      = 403)
  /\ (@route_add_product unique_keys (Some root_token) 0 gadget shop
      = (Ok (a_product gadget), mkStore [alice; root] [widget; gadget])
      /\ exists t usr,
           Some root_token = Some t
           /\ get_current_user t 0 shop = (Ok usr, shop)
           /\ In usr (users shop)
           /\ is_superuser usr = true).
Proof.
  split.
  - apply (proj1 (proj2 (@writes_need_admin_reads_open unique_keys
                           (Some alice_token) 0 shop))
             alice_token alice gadget 7 gadget); reflexivity.
  - split; [reflexivity|].
    apply (proj1 (@writes_need_admin_reads_open unique_keys (Some root_token) 0 shop)
             gadget 7 gadget (Ok (a_product gadget))
             (mkStore [alice; root] [widget; gadget])).
    + left. reflexivity.
    + right. eauto.
Defined.

(** C6: for an admin caller and a product id that no stored product has,
    update and delete return their "Product not found!!" answers with
    status 200 (no exception, so no server error) and the store is returned
    as it was. *)
Theorem absent_product_not_found `{Storage} (auth : option token) (now : datetime)
    (id : Z) (updated_product : Product) (s : Store) (admin : User) :
  Depends_require_admin auth now s = (Ok admin, s) ->
  (forall p, In p (products s) -> Product_id p <> id) ->
  route_update_product auth now id updated_product s
  = (Ok (an_error "Product not found!!"), s)
  /\ route_delete_product auth now id s = (Ok (a_str "Product not found!!"), s)
  /\ status 200 (fst (route_update_product auth now id updated_product s)) = 200
  /\ status 200 (fst (route_delete_product auth now id s)) = 200.
Proof.
  intros Hguard Habsent.
  apply Depends_require_admin_Ok in Hguard as Hadm.
  destruct Hadm as (_ & _ & _ & _ & Hadm).
  apply find_has_id_None in Habsent.
  assert (Hupd : route_update_product auth now id updated_product s
                 = (Ok (an_error "Product not found!!"), s)).
  { unfold route_update_product. rewrite guarded_route, Hguard.
    unfold update_product. rewrite Hadm. simpl.
    unfold mbind, db_bind, query_first. now rewrite Habsent. }
  assert (Hdel : route_delete_product auth now id s
                 = (Ok (a_str "Product not found!!"), s)).
  { unfold route_delete_product. rewrite guarded_route, Hguard.
    unfold delete_product. rewrite Hadm. simpl.
    unfold mbind, db_bind, query_first. now rewrite Habsent. }
  rewrite Hupd, Hdel. auto.
Qed.

Lemma absent_product_not_found_witness :
  Depends_require_admin (Some root_token) 0 shop = (Ok root, shop)
  /\ (forall p, In p (products shop) -> Product_id p <> 8)
  /\ @route_update_product unique_keys (Some root_token) 0 8 gadget shop
     = (Ok (an_error "Product not found!!"), shop)
  /\ @route_delete_product unique_keys (Some root_token) 0 8 shop
     = (Ok (a_str "Product not found!!"), shop).
Proof.
  assert (Habsent : forall p, In p (products shop) -> Product_id p <> 8).
  { intros p [<-|[]]. discriminate. }
  split; [reflexivity|]. split; [exact Habsent|].
  pose proof (@absent_product_not_found unique_keys (Some root_token) 0 8 gadget
                shop root eq_refl Habsent) as (Hupd & Hdel & _).
  split; assumption.
Defined.

(** C9: once [require_admin] has returned the user, each write handler
    takes its privileged branch: the handler is the code of that branch and
    its "Admin privileges required" answer is never returned, by the
    handler or by the route that runs it behind the guard. *)
Theorem denied_branches_unreachable `{Storage} (current_user admin : User) :
  require_admin current_user = Ok admin ->
  (forall product,
     add_product product admin
     = (db_commit (add_row product) ≫= fun _ => mret (a_product product)))
  /\ (forall product s, fst (add_product product admin s) <> Ok add_product_denied)
  /\ (forall id updated s,
        fst (update_product id updated admin s) <> Ok update_product_denied)
  /\ (forall id s, fst (delete_product id admin s) <> Ok delete_product_denied)
  /\ (forall auth now product id updated s,
        fst (route_add_product auth now product s) <> Ok add_product_denied
        /\ fst (route_update_product auth now id updated s) <> Ok update_product_denied
        /\ fst (route_delete_product auth now id s) <> Ok delete_product_denied).
Proof.
  intros Hguard.
  assert (Hgen : forall usr, is_superuser usr = true ->
            (forall product s, fst (add_product product usr s) <> Ok add_product_denied)
            /\ (forall id updated s,
                  fst (update_product id updated usr s) <> Ok update_product_denied)
            /\ (forall id s, fst (delete_product id usr s) <> Ok delete_product_denied)).
  { intros usr Hadm. repeat split.
    - intros product s. unfold add_product, mbind, db_bind, db_commit.
      rewrite Hadm. destruct (integrity (add_row product s)); simpl; discriminate.
    - intros id updated s. unfold update_product, mbind, db_bind, db_commit, query_first.
      rewrite Hadm. simpl. destruct (find (has_id id) (products s)); [|discriminate].
      destruct (integrity (update_row id updated s)); simpl; discriminate.
    - intros id s. unfold delete_product, mbind, db_bind, db_commit, query_first.
      rewrite Hadm. simpl. destruct (find (has_id id) (products s)); [|discriminate].
      destruct (integrity (delete_row id s)); simpl; discriminate. }
  assert (Hadm : is_superuser admin = true).
  { unfold require_admin in Hguard.
    destruct (is_superuser current_user) eqn:E; simpl in Hguard; [|discriminate].
    injection Hguard as <-. exact E. }
  destruct (Hgen admin Hadm) as (Hadd & Hupd & Hdel).
  split; [|split; [|split; [|split]]]; try assumption.
  - intros product. unfold add_product. now rewrite Hadm.
  - intros auth now product id updated s.
    unfold route_add_product, route_update_product, route_delete_product.
    rewrite !guarded_route.
    destruct (Depends_require_admin auth now s) as [[usr|e] s1] eqn:Eg.
    + apply Depends_require_admin_Ok in Eg as (_ & _ & _ & _ & Husr).
      destruct (Hgen usr Husr) as (Hadd' & Hupd' & Hdel'). auto.
    + simpl. repeat split; discriminate.
Qed.

Lemma denied_branches_unreachable_witness :
  require_admin root = Ok root
  /\ fst (@add_product unique_keys gadget root shop) <> Ok add_product_denied
  /\ fst (@update_product unique_keys 7 gadget root shop) <> Ok update_product_denied
  /\ fst (@delete_product unique_keys 7 root shop) <> Ok delete_product_denied.
Proof.
  split; [reflexivity|].
  pose proof (@denied_branches_unreachable unique_keys root root eq_refl)
    as (_ & Hadd & Hupd & Hdel & _).
  auto.
Defined.

(** * Further properties of the code *)

(** ** Lists of rows *)

Lemma find_snoc {A} (f : A -> bool) (l : list A) (x : A) :
  find f (l ++ [x])
  = match find f l with
    | Some y => Some y
    | None => if f x then Some x else None
    end.
Proof.
  induction l as [|y l IH]; simpl; [reflexivity|].
  destruct (f y); [reflexivity | exact IH].
Qed.

Lemma length_replace_first {A} (p : A -> bool) (new : A) (l : list A) :
  length (replace_first p new l) = length l.
Proof.
  induction l as [|x l IH]; simpl; [reflexivity|].
  destruct (p x); simpl; [reflexivity | now rewrite IH].
Qed.

Lemma length_remove_first {A} (p : A -> bool) (l : list A) (x : A) :
  find p l = Some x -> S (length (remove_first p l)) = length l.
Proof.
  induction l as [|y l IH]; simpl; [discriminate|].
  destruct (p y); simpl; [reflexivity|].
  intros Hf. now rewrite IH.
Qed.

Lemma find_replace_first_same (id : Z) (new old : Product) (l : list Product) :
  find (has_id id) l = Some old ->
  Product_id new = id ->
  find (has_id id) (replace_first (has_id id) new l) = Some new.
Proof.
  intros Hf Hid. induction l as [|x l IH]; simpl in *; [discriminate|].
  destruct (has_id id x) eqn:Ex; simpl.
  - unfold has_id. rewrite Hid, Z.eqb_refl. reflexivity.
  - rewrite Ex. now apply IH.
Qed.

Lemma find_replace_first_other (id id' : Z) (new : Product) (l : list Product) :
  id' <> id -> id' <> Product_id new ->
  find (has_id id') (replace_first (has_id id) new l) = find (has_id id') l.
Proof.
  intros Hne Hnew. induction l as [|x l IH]; simpl; [reflexivity|].
  destruct (has_id id x) eqn:Ex; simpl.
  - unfold has_id in Ex. apply Z.eqb_eq in Ex.
    unfold has_id at 1 3.
    destruct (Product_id new =? id') eqn:E1; [apply Z.eqb_eq in E1; congruence|].
    destruct (Product_id x =? id') eqn:E2; [apply Z.eqb_eq in E2; congruence|].
    reflexivity.
  - destruct (has_id id' x); [reflexivity | exact IH].
Qed.

Lemma find_remove_first_other (id id' : Z) (l : list Product) :
  id' <> id ->
  find (has_id id') (remove_first (has_id id) l) = find (has_id id') l.
Proof.
  intros Hne. induction l as [|x l IH]; simpl; [reflexivity|].
  destruct (has_id id x) eqn:Ex; simpl.
  - unfold has_id in Ex. apply Z.eqb_eq in Ex. unfold has_id at 2.
    destruct (Product_id x =? id') eqn:E2; [apply Z.eqb_eq in E2; congruence|].
    reflexivity.
  - destruct (has_id id' x); [reflexivity | exact IH].
Qed.

Lemma find_has_id_not_in (id : Z) (l : list Product) :
  ~ In id (map Product_id l) -> find (has_id id) l = None.
Proof.
  intros Hnin. apply find_has_id_None. intros p Hin Heq.
  apply Hnin. rewrite <- Heq. now apply in_map.
Qed.

(** With distinct ids, removing the first row of an id removes the id. *)
Lemma find_remove_first_same (id : Z) (l : list Product) :
  List.NoDup (map Product_id l) ->
  find (has_id id) (remove_first (has_id id) l) = None.
Proof.
  induction l as [|x l IH]; simpl; [reflexivity|].
  intros Hnd. apply NoDup_cons_iff in Hnd as [Hx Hnd].
  destruct (has_id id x) eqn:Ex; simpl.
  - unfold has_id in Ex. apply Z.eqb_eq in Ex. subst id.
    now apply find_has_id_not_in.
  - rewrite Ex. now apply IH.
Qed.

(** With distinct ids, replacing the row of [id] by a row of another id
    leaves no row of [id]. *)
Lemma find_replace_first_moved (id : Z) (new : Product) (l : list Product) :
  List.NoDup (map Product_id l) ->
  Product_id new <> id ->
  find (has_id id) (replace_first (has_id id) new l) = None.
Proof.
  intros Hnd Hne. induction l as [|x l IH]; simpl; [reflexivity|].
  simpl in Hnd. apply NoDup_cons_iff in Hnd as [Hx Hnd].
  destruct (has_id id x) eqn:Ex; simpl.
  - unfold has_id in Ex. apply Z.eqb_eq in Ex. subst id.
    unfold has_id at 1.
    destruct (Product_id new =? Product_id x) eqn:E; [apply Z.eqb_eq in E; congruence|].
    now apply find_has_id_not_in.
  - rewrite Ex. now apply IH.
Qed.

(** ** Registration *)

Lemma register_Ok `{PasswordHasher} `{Storage} (user_in : UserCreate) (salt : string)
    (s s' : Store) (u : User) :
  register user_in salt s = (Ok u, s') ->
  find (fun x => String.eqb (username x) (uc_username user_in)) (users s) = None
  /\ u = mkUser (fresh_user_id (users s)) (uc_username user_in) (uc_email user_in)
                (get_password_hash salt (uc_password user_in)) true false
  /\ s' = add_user u s
  /\ integrity s' = true.
Proof.
  unfold register. unfold mbind at 1. unfold db_bind.
  rewrite get_user_by_username_run.
  destruct (find _ (users s)) as [existing|] eqn:Ef; [discriminate|].
  unfold create_user, mbind, db_bind, db_commit.
  match goal with |- context [integrity ?st] => destruct (integrity st) eqn:Ei end;
    [|discriminate].
  intros Hr. injection Hr as <- <-. auto.
Qed.

Lemma register_taken `{PasswordHasher} `{Storage} (user_in : UserCreate)
    (salt : string) (s : Store) (existing : User) :
  find (fun x => String.eqb (username x) (uc_username user_in)) (users s)
  = Some existing ->
  register user_in salt s
  = (Raise (HTTPException 400 "Username already registered" []), s).
Proof.
  intros Hf. unfold register. unfold mbind at 1. unfold db_bind.
  now rewrite get_user_by_username_run, Hf.
Qed.

(** X1: a registration that returns has stored one new row: active, not an
    admin, with the given username and email and the hash of the password.
    The new user is the one a lookup of the username now finds; every other
    username resolves as before, and the products are untouched. *)
Theorem register_then_lookup `{PasswordHasher} `{Storage} (user_in : UserCreate)
    (salt : string) (s s' : Store) (u : User) :
  register user_in salt s = (Ok u, s') ->
  get_user_by_username (uc_username user_in) s' = (Ok (Some u), s')
  /\ username u = uc_username user_in
  /\ email u = uc_email user_in
  /\ hashed_password u = get_password_hash salt (uc_password user_in)
  /\ is_active u = true
  /\ is_superuser u = false
  /\ users s' = (users s ++ [u])%list
  /\ products s' = products s
  /\ (forall other, other <> uc_username user_in ->
        get_user_by_username other s' = (fst (get_user_by_username other s), s')).
Proof.
  intros Hr. apply register_Ok in Hr as (Hf & -> & -> & _).
  rewrite !get_user_by_username_run. simpl.
  repeat split.
  - rewrite find_snoc, Hf. simpl. now rewrite String.eqb_refl.
  - intros other Hne. rewrite !get_user_by_username_run. simpl. rewrite find_snoc.
    clear Hf.
    destruct (find (fun x => String.eqb (username x) other) (users s)); [reflexivity|].
    simpl.
    destruct (String.eqb (uc_username user_in) other) eqn:E; [|reflexivity].
    apply String.eqb_eq in E. congruence.
Qed.

Lemma register_then_lookup_witness :
  @register plain_hasher unique_keys carol_in "salt" shop
  = (Ok carol, mkStore [alice; root; carol] [widget])
  /\ get_user_by_username "carol" (mkStore [alice; root; carol] [widget])
     = (Ok (Some carol), mkStore [alice; root; carol] [widget]).
Proof.
  split; [reflexivity|].
  apply (@register_then_lookup plain_hasher unique_keys carol_in "salt" shop
           (mkStore [alice; root; carol] [widget]) carol).
  reflexivity.
Defined.

(** X2: after a registration that returned, registering the same username
    again, with whatever email, password and salt, is refused with 400 and
    changes nothing. *)
Theorem register_twice `{PasswordHasher} `{Storage} (user_in again : UserCreate)
    (salt salt' : string) (s s' : Store) (u : User) :
  register user_in salt s = (Ok u, s') ->
  uc_username again = uc_username user_in ->
  register again salt' s'
  = (Raise (HTTPException 400 "Username already registered" []), s').
Proof.
  intros Hr Hname. apply register_Ok in Hr as (Hf & -> & -> & _).
  apply register_taken with (existing :=
    mkUser (fresh_user_id (users s)) (uc_username user_in) (uc_email user_in)
           (get_password_hash salt (uc_password user_in)) true false).
  simpl. rewrite find_snoc, Hname, Hf. simpl. now rewrite String.eqb_refl.
Qed.

Lemma register_twice_witness :
  @register plain_hasher unique_keys carol_in "salt" shop
  = (Ok carol, mkStore [alice; root; carol] [widget])
  /\ @register plain_hasher unique_keys (mkUserCreate "carol" None "other") "pepper"
       (mkStore [alice; root; carol] [widget])
     = (Raise (HTTPException 400 "Username already registered" []),
        mkStore [alice; root; carol] [widget]).
Proof.
  split; [reflexivity|].
  apply (@register_twice plain_hasher unique_keys carol_in
           (mkUserCreate "carol" None "other") "salt" "pepper" shop
           (mkStore [alice; root; carol] [widget]) carol); reflexivity.
Defined.

(** X3: with a hasher that verifies the hash it has just made, a user who
    registered can authenticate with the same username and password and is
    handed a token for that username with the admin claim false; a password
    the hash rejects gets the plain 401. *)
Theorem register_then_login `{PasswordHasher} `{Storage} (user_in : UserCreate)
    (salt : string) (now : datetime) (s s' : Store) (u : User) :
  register user_in salt s = (Ok u, s') ->
  verify_password (uc_password user_in)
                  (get_password_hash salt (uc_password user_in)) = Ok true ->
  authenticate_user (uc_username user_in) (uc_password user_in) s' = (Ok (Some u), s')
  /\ login_for_access_token (uc_username user_in) (uc_password user_in) now s'
     = (Ok (JWS ALGORITHM SECRET_KEY
                (mkClaims (Some (uc_username user_in)) (Some false)
                          (Some (timegm now + 3600))),
            "bearer"), s')
  /\ (forall wrong,
        verify_password wrong (get_password_hash salt (uc_password user_in)) = Ok false ->
        login_for_access_token (uc_username user_in) wrong now s'
        = (Raise (HTTPException 401 "Incorrect username or password"
                                [("WWW-Authenticate", "Bearer")]), s')).
Proof.
  intros Hr Hv. apply register_Ok in Hr as (Hf & -> & -> & _).
  rewrite !login_for_access_token_unfold, !authenticate_user_unfold.
  cbn [users add_user]. rewrite find_snoc, Hf.
  cbn [username]. rewrite String.eqb_refl.
  cbn [username hashed_password is_superuser]. rewrite Hv.
  split; [reflexivity|]. split.
  - unfold create_access_token, to_encode, jwt_encode.
    cbn [claim_sub claim_is_superuser claim_exp or_default fmap option_fmap option_map].
    change (timedelta_minutes ACCESS_TOKEN_EXPIRE_MINUTES) with (timedelta_minutes 60).
    now rewrite timegm_after_minutes.
  - intros wrong Hw. rewrite login_for_access_token_unfold, authenticate_user_unfold.
    cbn [users add_user]. rewrite find_snoc, Hf.
    cbn [username]. rewrite String.eqb_refl. cbn [hashed_password]. now rewrite Hw.
Qed.

Lemma register_then_login_witness :
  @register plain_hasher unique_keys carol_in "salt" shop
  = (Ok carol, mkStore [alice; root; carol] [widget])
  /\ @authenticate_user plain_hasher "carol" "hunter2"
       (mkStore [alice; root; carol] [widget])
     = (Ok (Some carol), mkStore [alice; root; carol] [widget]).
Proof.
  split; [reflexivity|].
  apply (@register_then_login plain_hasher unique_keys carol_in "salt" 0 shop
           (mkStore [alice; root; carol] [widget]) carol); reflexivity.
Defined.

(** ** Tokens, from login to the resolved caller *)

Lemma jwt_decode_signed (payload : claims Z) (now : datetime) :
  (forall exp, claim_exp payload = Some exp -> timegm now <= exp) ->
  jwt_decode (JWS ALGORITHM SECRET_KEY payload) SECRET_KEY [ALGORITHM] now = Ok payload.
Proof.
  intros Hexp. unfold jwt_decode.
  replace (existsb (String.eqb ALGORITHM) [ALGORITHM]) with true by reflexivity.
  replace (String.eqb SECRET_KEY SECRET_KEY) with true by reflexivity.
  cbn [negb]. destruct (claim_exp payload) as [exp|]; [|reflexivity].
  specialize (Hexp exp eq_refl).
  destruct (exp <? timegm now) eqn:E; [apply Z.ltb_lt in E; lia | reflexivity].
Qed.

Lemma create_access_token_unfold (data : claims datetime) (delta : option timedelta)
    (issued : datetime) :
  create_access_token data delta issued
  = JWS ALGORITHM SECRET_KEY
        (mkClaims (claim_sub data) (claim_is_superuser data)
                  (Some (timegm (issued + or_default delta
                                   (timedelta_minutes ACCESS_TOKEN_EXPIRE_MINUTES))))).
Proof. reflexivity. Qed.

Lemma decode_token_data_created (data : claims datetime) (delta : option timedelta)
    (issued now : datetime) :
  decode_token_data (create_access_token data delta issued) now
  = if timegm now <=? timegm (issued + or_default delta
                                (timedelta_minutes ACCESS_TOKEN_EXPIRE_MINUTES))
    then match claim_sub data with
         | Some u => Ok (mkTokenData (Some u)
                           (Some (default false (claim_is_superuser data))))
         | None => Raise credentials_exception
         end
    else Raise credentials_exception.
Proof.
  rewrite create_access_token_unfold.
  set (exp := timegm (issued + or_default delta _)).
  unfold decode_token_data.
  destruct (timegm now <=? exp) eqn:E.
  - apply Z.leb_le in E. rewrite jwt_decode_signed.
    + cbn [mbind outcome_bind claim_sub claim_is_superuser].
      destruct (claim_sub data); reflexivity.
    + cbn [claim_exp]. intros e He. injection He as <-. exact E.
  - apply Z.leb_gt in E. unfold jwt_decode.
    replace (existsb (String.eqb ALGORITHM) [ALGORITHM]) with true by reflexivity.
    replace (String.eqb SECRET_KEY SECRET_KEY) with true by reflexivity.
    cbn [negb claim_exp]. apply Z.ltb_lt in E. now rewrite E.
Qed.

Lemma login_for_access_token_Ok `{PasswordHasher} (u p : string) (issued : datetime)
    (s s' : Store) (tok : token) (ty : string) :
  login_for_access_token u p issued s = (Ok (tok, ty), s') ->
  s' = s /\ ty = "bearer"
  /\ exists usr,
       find (fun x => String.eqb (username x) u) (users s) = Some usr
       /\ verify_password p (hashed_password usr) = Ok true
       /\ tok = create_access_token
                  (mkClaims (Some (username usr)) (Some (is_superuser usr)) None)
                  None issued.
Proof.
  rewrite login_for_access_token_unfold, authenticate_user_unfold.
  destruct (find _ (users s)) as [usr|] eqn:Ef; [|discriminate].
  destruct (verify_password p (hashed_password usr)) as [[|]|e] eqn:Ev; try discriminate.
  intros Hl. injection Hl as <- <- <-. eauto 10.
Qed.

(** The guard reads the users only. *)
Lemma Depends_require_admin_resolved (t : token) (now : datetime) (s : Store)
    (usr : User) :
  get_current_user t now s = (Ok usr, s) ->
  Depends_require_admin (Some t) now s
  = (if is_superuser usr then Ok usr
     else Raise (HTTPException 403 "Admin privileges required" []), s).
Proof.
  intros Hg.
  unfold Depends_require_admin, Depends_get_current_user, mbind, db_bind, lift.
  simpl. rewrite Hg. unfold require_admin.
  destruct (is_superuser usr); reflexivity.
Qed.

(** X4: the token a login hands out resolves, at any time up to its expiry
    second and against the same store, to the very user who logged in; the
    login itself writes nothing. *)
Theorem login_then_resolve `{PasswordHasher} (u p : string) (issued now : datetime)
    (s s' : Store) (tok : token) (ty : string) :
  login_for_access_token u p issued s = (Ok (tok, ty), s') ->
  timegm now <= timegm issued + 3600 ->
  s' = s
  /\ exists usr,
       authenticate_user u p s = (Ok (Some usr), s)
       /\ username usr = u
       /\ Depends_get_current_user (Some tok) now s = (Ok usr, s).
Proof.
  intros Hl Hnow.
  apply login_for_access_token_Ok in Hl as (-> & _ & usr & Hf & Hv & ->).
  split; [reflexivity|]. exists usr.
  apply find_username_Some in Hf as Hu. destruct Hu as [_ Hu].
  rewrite authenticate_user_unfold, Hf, Hv.
  split; [reflexivity|]. split; [exact Hu|].
  unfold Depends_get_current_user, mbind, db_bind, lift. simpl.
  rewrite get_current_user_unfold, decode_token_data_created.
  cbn [or_default claim_sub claim_is_superuser].
  rewrite timegm_after_minutes.
  change (ACCESS_TOKEN_EXPIRE_MINUTES * 60) with 3600.
  destruct (timegm now <=? timegm issued + 3600) eqn:E; [|apply Z.leb_gt in E; lia].
  cbn [td_username]. now rewrite Hu, Hf.
Qed.

Lemma login_then_resolve_witness :
  @login_for_access_token plain_hasher "alice" "pw123" 0 shop
  = (Ok (alice_token, "bearer"), shop)
  /\ exists usr,
       @authenticate_user plain_hasher "alice" "pw123" shop = (Ok (Some usr), shop)
       /\ username usr = "alice"
       /\ Depends_get_current_user (Some alice_token) (1800 * one_second) shop
          = (Ok usr, shop).
Proof.
  split; [reflexivity|].
  apply (@login_then_resolve plain_hasher "alice" "pw123" 0 (1800 * one_second)
           shop shop alice_token "bearer"); [reflexivity|].
  vm_compute. discriminate.
Defined.

(** X5: what a token from a login may do follows the store at the time of
    the request, not the admin claim baked in at login: against any store
    in which the username now resolves to [usr2], the admin guard lets the
    token in exactly when [usr2] is an admin there. A promotion or demotion
    made in the store takes effect on tokens already issued. *)
Theorem guard_follows_store `{PasswordHasher} (u p : string) (issued now : datetime)
    (s s' s2 : Store) (tok : token) (ty : string) (usr2 : User) :
  login_for_access_token u p issued s = (Ok (tok, ty), s') ->
  timegm now <= timegm issued + 3600 ->
  get_user_by_username u s2 = (Ok (Some usr2), s2) ->
  Depends_require_admin (Some tok) now s2
  = (if is_superuser usr2 then Ok usr2
     else Raise (HTTPException 403 "Admin privileges required" []), s2).
Proof.
  intros Hl Hnow Hf2.
  apply login_for_access_token_Ok in Hl as (-> & _ & usr & Hf & Hv & ->).
  apply find_username_Some in Hf as Hu. destruct Hu as [_ Hu].
  rewrite get_user_by_username_run in Hf2. injection Hf2 as Hf2.
  apply Depends_require_admin_resolved.
  rewrite get_current_user_unfold, decode_token_data_created.
  cbn [or_default claim_sub claim_is_superuser].
  rewrite timegm_after_minutes.
  change (ACCESS_TOKEN_EXPIRE_MINUTES * 60) with 3600.
  destruct (timegm now <=? timegm issued + 3600) eqn:E; [|apply Z.leb_gt in E; lia].
  cbn [td_username]. now rewrite Hu, Hf2.
Qed.

Lemma guard_follows_store_witness :
  @login_for_access_token plain_hasher "alice" "pw123" 0 shop
  = (Ok (alice_token, "bearer"), shop)
  /\ Depends_require_admin (Some alice_token) (60 * one_second) shop
     = (Raise (HTTPException 403 "Admin privileges required" []), shop)
  /\ Depends_require_admin (Some alice_token) (60 * one_second) shop_promoted
     = (Ok alice_promoted, shop_promoted).
Proof.
  split; [reflexivity|]. split.
  - apply (@guard_follows_store plain_hasher "alice" "pw123" 0 (60 * one_second)
             shop shop shop alice_token "bearer" alice); try reflexivity.
    vm_compute. discriminate.
  - apply (@guard_follows_store plain_hasher "alice" "pw123" 0 (60 * one_second)
             shop shop shop_promoted alice_token "bearer" alice_promoted);
      try reflexivity.
    vm_compute. discriminate.
Defined.

(** ** The example routes *)

Lemma Depends_get_current_user_unfold (auth : option token) (now : datetime)
    (s : Store) :
  Depends_get_current_user auth now s =
  match auth with
  | Some t => get_current_user t now s
  | None =>
      (Raise (HTTPException 401 "Not authenticated" [("WWW-Authenticate", "Bearer")]), s)
  end.
Proof. destruct auth; reflexivity. Qed.

Lemma route_read_users_me_unfold (auth : option token) (now : datetime) (s : Store) :
  route_read_users_me auth now s =
  match Depends_get_current_user auth now s with
  | (Ok usr, s') =>
      if is_active usr then (Ok usr, s')
      else (Raise (HTTPException 400 "Inactive user" []), s')
  | (Raise e, s') => (Raise e, s')
  end.
Proof.
  unfold route_read_users_me, Depends_get_current_active_user, mbind, db_bind, lift,
    get_current_active_user, read_users_me.
  destruct (Depends_get_current_user auth now s) as [[usr|e] s']; [|reflexivity].
  destruct (is_active usr); reflexivity.
Qed.

(** X10: [/me] returns the caller exactly when the bearer token resolves to
    a stored user whose active flag is set; a resolved user without the
    flag gets the 400 "Inactive user", a request without credentials the
    401 "Not authenticated"; the store is never written. *)
Theorem read_users_me_active_only (auth : option token) (now : datetime)
    (s : Store) :
  (forall usr s',
     route_read_users_me auth now s = (Ok usr, s') <->
     s' = s
     /\ exists t, auth = Some t
                  /\ get_current_user t now s = (Ok usr, s)
                  /\ is_active usr = true)
  /\ (forall t usr,
        auth = Some t ->
        get_current_user t now s = (Ok usr, s) ->
        is_active usr = false ->
        route_read_users_me auth now s
        = (Raise (HTTPException 400 "Inactive user" []), s))
  /\ (auth = None ->
        route_read_users_me auth now s
        = (Raise (HTTPException 401 "Not authenticated"
                                [("WWW-Authenticate", "Bearer")]), s))
  /\ snd (route_read_users_me auth now s) = s.
Proof.
  rewrite route_read_users_me_unfold, Depends_get_current_user_unfold.
  refine (conj _ (conj _ (conj _ _))).
  - intros usr s'. split.
    + destruct auth as [t|]; [|discriminate].
      destruct (get_current_user t now s) as [[u|e] s1] eqn:Eg; [|discriminate].
      apply get_current_user_Ok in Eg as Hs. destruct Hs as [-> _].
      destruct (is_active u) eqn:Ea; [|discriminate].
      intros Hr. injection Hr as -> ->. split; [reflexivity|]. exists t. auto.
    + intros (-> & t & -> & Hg & Ha). now rewrite Hg, Ha.
  - intros t usr -> Hg Ha. now rewrite Hg, Ha.
  - intros ->. reflexivity.
  - destruct auth as [t|]; [|reflexivity].
    destruct (get_current_user t now s) as [[u|e] s1] eqn:Eg.
    + apply get_current_user_Ok in Eg as [-> _]. now destruct (is_active u).
    + apply get_current_user_Raise in Eg as [_ ->]. reflexivity.
Qed.

Lemma read_users_me_active_only_witness :
  route_read_users_me (Some alice_token) 0 depot = (Ok alice, depot)
  /\ route_read_users_me (Some dormant_token) 0 depot
     = (Raise (HTTPException 400 "Inactive user" []), depot)
  /\ route_read_users_me None 0 depot
     = (Raise (HTTPException 401 "Not authenticated" [("WWW-Authenticate", "Bearer")]),
        depot).
Proof.
  pose proof (read_users_me_active_only (Some alice_token) 0 depot) as (Hok & _).
  pose proof (read_users_me_active_only (Some dormant_token) 0 depot)
    as (_ & Hinactive & _).
  pose proof (read_users_me_active_only None 0 depot) as (_ & _ & Hnone & _).
  split; [|split].
  - apply Hok. split; [reflexivity|]. exists alice_token. repeat split; reflexivity.
  - apply (Hinactive dormant_token dormant); reflexivity.
  - apply Hnone. reflexivity.
Defined.

(** X11: the admin guard asks for the admin flag only. A stored admin whose
    account is not active is refused by [/me] with 400, yet passes
    [require_admin]: the admin-only route greets the user by name and the
    product routes run their handlers for that user. *)
Theorem inactive_admin_still_admin `{Storage} (t : token) (now : datetime) (s : Store)
    (usr : User) :
  get_current_user t now s = (Ok usr, s) ->
  is_superuser usr = true ->
  is_active usr = false ->
  route_read_users_me (Some t) now s = (Raise (HTTPException 400 "Inactive user" []), s)
  /\ Depends_require_admin (Some t) now s = (Ok usr, s)
  /\ route_admin_only_route (Some t) now s
     = (Ok ("Hello " ++ username usr ++ ", you are an admin.")%string, s)
  /\ (forall product, route_add_product (Some t) now product s
                      = add_product product usr s)
  /\ (forall id updated, route_update_product (Some t) now id updated s
                         = update_product id updated usr s)
  /\ (forall id, route_delete_product (Some t) now id s = delete_product id usr s).
Proof.
  intros Hg Hadm Hact.
  assert (Hguard : Depends_require_admin (Some t) now s = (Ok usr, s)).
  { rewrite (Depends_require_admin_resolved t now s usr Hg). now rewrite Hadm. }
  refine (conj _ (conj Hguard (conj _ (conj _ (conj _ _))))).
  - rewrite route_read_users_me_unfold, Depends_get_current_user_unfold, Hg.
    now rewrite Hact.
  - unfold route_admin_only_route. now rewrite guarded_route, Hguard.
  - intros product. unfold route_add_product. now rewrite guarded_route, Hguard.
  - intros id updated. unfold route_update_product. now rewrite guarded_route, Hguard.
  - intros id. unfold route_delete_product. now rewrite guarded_route, Hguard.
Qed.

Lemma inactive_admin_still_admin_witness :
  get_current_user dormant_token 0 depot = (Ok dormant, depot)
  /\ route_read_users_me (Some dormant_token) 0 depot
     = (Raise (HTTPException 400 "Inactive user" []), depot)
  /\ route_admin_only_route (Some dormant_token) 0 depot
     = (Ok "Hello dormant, you are an admin.", depot)
  /\ @route_delete_product unique_keys (Some dormant_token) 0 7 depot
     = (Ok (a_str "Product deleted successfully!!"),
        mkStore [alice; root; dormant; legacy] [gadget]).
Proof.
  split; [reflexivity|].
  pose proof (@inactive_admin_still_admin unique_keys dormant_token 0 depot dormant
                eq_refl eq_refl eq_refl) as (Hme & _ & Hhello & _ & _ & Hdel).
  split; [exact Hme|]. split; [exact Hhello|].
  rewrite Hdel. reflexivity.
Defined.

Lemma find_map_same {A} (f : A -> bool) (g : A -> A) (l : list A) :
  (forall x, f (g x) = f x) ->
  find f (map g l) = option_map g (find f l).
Proof.
  intros Hfg. induction l as [|x l IH]; simpl; [reflexivity|].
  rewrite Hfg. destruct (f x); [reflexivity | exact IH].
Qed.

(** X12: logging in does not look at the active flag. Rewrite the active
    flags of the stored users in any way: every login, with whatever
    username and password, has the same outcome as before, token
    included. *)
Theorem login_ignores_is_active `{PasswordHasher} (flag : User -> bool) (u p : string)
    (now : datetime) (s : Store) :
  fst (login_for_access_token u p now (set_is_active flag s))
  = fst (login_for_access_token u p now s).
Proof.
  rewrite !login_for_access_token_unfold, !authenticate_user_unfold.
  cbn [set_is_active users].
  rewrite find_map_same by reflexivity.
  destruct (find _ (users s)) as [usr|]; [|reflexivity].
  cbn [option_map with_is_active hashed_password].
  destruct (verify_password p (hashed_password usr)) as [[|]|e]; reflexivity.
Qed.

(** X13: a stored hash that passlib does not recognise as argon2 makes
    every login for that username fail with [UnknownHashError], whatever
    the password: an uncaught exception, so a 500 and not the 401 that a
    wrong password or an unknown username gets. *)
Theorem login_unrecognised_stored_hash `{PasswordHasher} (u p : string)
    (now : datetime) (s : Store) (usr : User) :
  get_user_by_username u s = (Ok (Some usr), s) ->
  argon2_identify (hashed_password usr) = false ->
  authenticate_user u p s = (Raise UnknownHashError, s)
  /\ login_for_access_token u p now s = (Raise UnknownHashError, s)
  /\ status 200 (fst (login_for_access_token u p now s)) = 500.
Proof.
  intros Hf Hid. rewrite get_user_by_username_run in Hf. injection Hf as Hf.
  rewrite login_for_access_token_unfold, authenticate_user_unfold, Hf.
  unfold verify_password, pwd_context_verify. rewrite Hid. auto.
Qed.

Lemma login_unrecognised_stored_hash_witness :
  argon2_identify (hashed_password legacy) = false
  /\ @login_for_access_token plain_hasher "legacy" "password" 0 depot
     = (Raise UnknownHashError, depot).
Proof.
  split; [reflexivity|].
  apply (@login_unrecognised_stored_hash plain_hasher "legacy" "password" 0 depot
           legacy); reflexivity.
Defined.

(** ** Product writes, as seen by the reads *)

Lemma get_product_by_id_run (id : Z) (s : Store) :
  get_product_by_id id s
  = (match find (has_id id) (products s) with
     | Some p => Ok (a_product p)
     | None => Ok (a_str "Product not found!!")
     end, s).
Proof.
  unfold get_product_by_id, mbind, db_bind, query_first.
  destruct (find (has_id id) (products s)); reflexivity.
Qed.

Lemma guard_passed {A} (handler : User -> db A) (auth : option token)
    (now : datetime) (s s' : Store) (a : A) :
  (Depends_require_admin auth now ≫= handler) s = (Ok a, s') ->
  exists usr,
    Depends_require_admin auth now s = (Ok usr, s)
    /\ is_superuser usr = true
    /\ handler usr s = (Ok a, s').
Proof.
  rewrite guarded_route.
  destruct (Depends_require_admin auth now s) as [[usr|e] s1] eqn:Eg; [|discriminate].
  apply Depends_require_admin_Ok in Eg as Hs. destruct Hs as (-> & _ & _ & _ & Hadm).
  intros Hh. exists usr. auto.
Qed.

Lemma route_add_product_Ok `{Storage} (auth : option token) (now : datetime)
    (product : Product) (s s' : Store) (c : content) :
  route_add_product auth now product s = (Ok c, s') ->
  c = a_product product /\ s' = add_row product s /\ integrity s' = true.
Proof.
  intros Hr. apply guard_passed in Hr as (usr & _ & Hadm & Hh).
  unfold add_product, mbind, db_bind, db_commit in Hh. rewrite Hadm in Hh.
  destruct (integrity (add_row product s)) eqn:Ei; [|discriminate].
  injection Hh as <- <-. auto.
Qed.

Lemma route_update_product_Ok `{Storage} (auth : option token) (now : datetime)
    (id : Z) (updated : Product) (s s' : Store) :
  route_update_product auth now id updated s
  = (Ok (a_str "Product Updated Successfully!!"), s') ->
  (exists old, find (has_id id) (products s) = Some old)
  /\ s' = update_row id updated s /\ integrity s' = true.
Proof.
  intros Hr. apply guard_passed in Hr as (usr & _ & Hadm & Hh).
  unfold update_product, mbind, db_bind, db_commit, query_first in Hh.
  rewrite Hadm in Hh. cbn [negb] in Hh.
  destruct (find (has_id id) (products s)) as [old|] eqn:Ef; [|discriminate].
  destruct (integrity (update_row id updated s)) eqn:Ei; [|discriminate].
  injection Hh as <-. eauto.
Qed.

Lemma route_delete_product_Ok `{Storage} (auth : option token) (now : datetime)
    (id : Z) (s s' : Store) :
  route_delete_product auth now id s
  = (Ok (a_str "Product deleted successfully!!"), s') ->
  (exists old, find (has_id id) (products s) = Some old)
  /\ s' = delete_row id s /\ integrity s' = true.
Proof.
  intros Hr. apply guard_passed in Hr as (usr & _ & Hadm & Hh).
  unfold delete_product, mbind, db_bind, db_commit, query_first in Hh.
  rewrite Hadm in Hh. cbn [negb] in Hh.
  destruct (find (has_id id) (products s)) as [old|] eqn:Ef; [|discriminate].
  destruct (integrity (delete_row id s)) eqn:Ei; [|discriminate].
  injection Hh as <-. eauto.
Qed.

(** X14: a product an admin has added under an id no stored product had is
    what the read by id returns next, for any caller; the answer of the
    write is the product itself, the row is appended, the other ids read
    as before and the users are untouched. *)
Theorem add_then_get `{Storage} (auth reader : option token) (now : datetime)
    (product : Product) (s s' : Store) (c : content) :
  route_add_product auth now product s = (Ok c, s') ->
  (forall p, In p (products s) -> Product_id p <> Product_id product) ->
  c = a_product product
  /\ products s' = (products s ++ [product])%list
  /\ users s' = users s
  /\ route_get_product_by_id reader (Product_id product) s' = (Ok (a_product product), s')
  /\ (forall id, id <> Product_id product ->
        fst (route_get_product_by_id reader id s')
        = fst (route_get_product_by_id reader id s)).
Proof.
  intros Hr Hfresh. apply route_add_product_Ok in Hr as (-> & -> & _).
  apply find_has_id_None in Hfresh.
  unfold route_get_product_by_id. cbn [add_row products users].
  refine (conj eq_refl (conj eq_refl (conj eq_refl (conj _ _)))).
  - rewrite get_product_by_id_run. cbn [products add_row].
    rewrite find_snoc, Hfresh. unfold has_id at 1. now rewrite Z.eqb_refl.
  - intros id Hne. rewrite !get_product_by_id_run. cbn [products add_row fst].
    rewrite find_snoc. destruct (find (has_id id) (products s)); [reflexivity|].
    unfold has_id. destruct (Product_id product =? id) eqn:E; [|reflexivity].
    apply Z.eqb_eq in E. congruence.
Qed.

Lemma add_then_get_witness :
  @route_add_product unique_keys (Some root_token) 0 gadget shop
  = (Ok (a_product gadget), mkStore [alice; root] [widget; gadget])
  /\ route_get_product_by_id None 8 (mkStore [alice; root] [widget; gadget])
     = (Ok (a_product gadget), mkStore [alice; root] [widget; gadget]).
Proof.
  split; [reflexivity|].
  apply (@add_then_get unique_keys (Some root_token) None 0 gadget shop
           (mkStore [alice; root] [widget; gadget]) (a_product gadget));
    [reflexivity|].
  intros p [<-|[]]. discriminate.
Defined.

(** X15: the write handlers do not guard their commit. When the store
    refuses the change (a second product under an id that must be unique,
    say), the [IntegrityError] escapes the handler: the answer is a 500 and
    the store is left as it was. *)
Theorem refused_commit_is_server_error `{Storage} (auth : option token)
    (now : datetime) (s : Store) (admin : User) :
  Depends_require_admin auth now s = (Ok admin, s) ->
  (forall product,
     integrity (add_row product s) = false ->
     route_add_product auth now product s = (Raise IntegrityError, s))
  /\ (forall id updated old,
        find (has_id id) (products s) = Some old ->
        integrity (update_row id updated s) = false ->
        route_update_product auth now id updated s = (Raise IntegrityError, s))
  /\ status 200 (Raise (A:=content) IntegrityError) = 500.
Proof.
  intros Hguard.
  apply Depends_require_admin_Ok in Hguard as Hadm.
  destruct Hadm as (_ & _ & _ & _ & Hadm).
  refine (conj _ (conj _ eq_refl)).
  - intros product Hi. unfold route_add_product. rewrite guarded_route, Hguard.
    unfold add_product, mbind, db_bind, db_commit. now rewrite Hadm, Hi.
  - intros id updated old Hf Hi. unfold route_update_product.
    rewrite guarded_route, Hguard.
    unfold update_product, mbind, db_bind, db_commit, query_first.
    rewrite Hadm. cbn [negb]. now rewrite Hf, Hi.
Qed.

Lemma refused_commit_is_server_error_witness :
  Depends_require_admin (Some root_token) 0 depot = (Ok root, depot)
  /\ @route_add_product unique_keys (Some root_token) 0 widget_v2 depot
     = (Raise IntegrityError, depot)
  /\ @route_update_product unique_keys (Some root_token) 0 8 widget_v2 depot
     = (Raise IntegrityError, depot).
Proof.
  split; [reflexivity|].
  pose proof (@refused_commit_is_server_error unique_keys (Some root_token) 0 depot
                root eq_refl) as (Hadd & Hupd & _).
  split.
  - apply Hadd. reflexivity.
  - apply (Hupd 8 widget_v2 gadget); reflexivity.
Defined.

(** X16: an update that answers "Product Updated Successfully!!" has
    replaced one stored row, the first of the path id, by the body: the
    number of rows is the same, the users are untouched, the ids other than
    the path id and the body's id read as before, and when the body keeps
    the path id the read of that id returns the body. *)
Theorem update_then_get `{Storage} (auth reader : option token) (now : datetime)
    (id : Z) (updated : Product) (s s' : Store) :
  route_update_product auth now id updated s
  = (Ok (a_str "Product Updated Successfully!!"), s') ->
  length (products s') = length (products s)
  /\ users s' = users s
  /\ (Product_id updated = id ->
        route_get_product_by_id reader id s' = (Ok (a_product updated), s'))
  /\ (forall id', id' <> id -> id' <> Product_id updated ->
        fst (route_get_product_by_id reader id' s')
        = fst (route_get_product_by_id reader id' s)).
Proof.
  intros Hr. apply route_update_product_Ok in Hr as ((old & Hf) & -> & _).
  unfold route_get_product_by_id. cbn [update_row products users].
  refine (conj _ (conj eq_refl (conj _ _))).
  - apply length_replace_first.
  - intros Hid. rewrite get_product_by_id_run. cbn [products update_row].
    now rewrite (find_replace_first_same id updated old).
  - intros id' Hne Hne'. rewrite !get_product_by_id_run. cbn [products update_row fst].
    now rewrite find_replace_first_other.
Qed.

Lemma update_then_get_witness :
  @route_update_product unique_keys (Some root_token) 0 7 widget_v2 depot
  = (Ok (a_str "Product Updated Successfully!!"),
     mkStore [alice; root; dormant; legacy] [widget_v2; gadget])
  /\ route_get_product_by_id None 7
       (mkStore [alice; root; dormant; legacy] [widget_v2; gadget])
     = (Ok (a_product widget_v2),
        mkStore [alice; root; dormant; legacy] [widget_v2; gadget]).
Proof.
  split; [reflexivity|].
  apply (proj1 (proj2 (proj2
           (@update_then_get unique_keys (Some root_token) None 0 7 widget_v2 depot
              (mkStore [alice; root; dormant; legacy] [widget_v2; gadget]) eq_refl)))).
  reflexivity.
Defined.

(** X17: the body of an update may carry another id than the path. The row
    then moves: with distinct ids in the table beforehand, the path id is
    no longer found afterwards and the body's id returns the body. *)
Theorem update_moves_product `{Storage} (auth reader : option token) (now : datetime)
    (id : Z) (updated : Product) (s s' : Store) :
  route_update_product auth now id updated s
  = (Ok (a_str "Product Updated Successfully!!"), s') ->
  List.NoDup (map Product_id (products s)) ->
  Product_id updated <> id ->
  (forall p, In p (products s) -> Product_id p <> Product_id updated) ->
  route_get_product_by_id reader id s' = (Ok (a_str "Product not found!!"), s')
  /\ route_get_product_by_id reader (Product_id updated) s'
     = (Ok (a_product updated), s').
Proof.
  intros Hr Hnd Hne Hfresh.
  apply route_update_product_Ok in Hr as ((old & Hf) & -> & _).
  unfold route_get_product_by_id. rewrite !get_product_by_id_run.
  cbn [products update_row]. split.
  - now rewrite find_replace_first_moved.
  - assert (Hfind : find (has_id (Product_id updated))
                      (replace_first (has_id id) updated (products s))
                    = Some updated); [|now rewrite Hfind].
    clear Hnd. induction (products s) as [|x l IH]; simpl in *; [discriminate|].
    destruct (has_id id x) eqn:Ex; simpl.
    + unfold has_id. now rewrite Z.eqb_refl.
    + unfold has_id at 1.
      destruct (Product_id x =? Product_id updated) eqn:E.
      * apply Z.eqb_eq in E. exfalso. apply (Hfresh x); auto.
      * apply IH; auto.
Qed.

Lemma update_moves_product_witness :
  @route_update_product unique_keys (Some root_token) 0 7 widget_moved depot
  = (Ok (a_str "Product Updated Successfully!!"),
     mkStore [alice; root; dormant; legacy] [widget_moved; gadget])
  /\ route_get_product_by_id None 7
       (mkStore [alice; root; dormant; legacy] [widget_moved; gadget])
     = (Ok (a_str "Product not found!!"),
        mkStore [alice; root; dormant; legacy] [widget_moved; gadget])
  /\ route_get_product_by_id None 9
       (mkStore [alice; root; dormant; legacy] [widget_moved; gadget])
     = (Ok (a_product widget_moved),
        mkStore [alice; root; dormant; legacy] [widget_moved; gadget]).
Proof.
  split; [reflexivity|].
  apply (@update_moves_product unique_keys (Some root_token) None 0 7 widget_moved
           depot (mkStore [alice; root; dormant; legacy] [widget_moved; gadget])).
  - reflexivity.
  - simpl. repeat constructor; simpl; intuition discriminate.
  - discriminate.
  - intros p [<-|[<-|[]]]; discriminate.
Defined.

Lemma Depends_require_admin_users (auth : option token) (now : datetime)
    (s1 s2 : Store) :
  users s1 = users s2 ->
  fst (Depends_require_admin auth now s1) = fst (Depends_require_admin auth now s2).
Proof.
  intros Hu.
  unfold Depends_require_admin, Depends_get_current_user, mbind, db_bind, lift.
  destruct auth as [t|]; cbn [oauth2_scheme]; [|reflexivity].
  rewrite !get_current_user_unfold.
  destruct (decode_token_data t now) as [td|e]; [|reflexivity].
  destruct (td_username td) as [u|]; [|reflexivity].
  rewrite Hu. destruct (find _ (users s2)); reflexivity.
Qed.

Lemma find_has_id_NoDup (p : Product) (l : list Product) :
  In p l -> List.NoDup (map Product_id l) ->
  find (has_id (Product_id p)) l = Some p.
Proof.
  induction l as [|x l IH]; simpl; [contradiction|].
  intros Hin Hnd. apply NoDup_cons_iff in Hnd as [Hx Hnd].
  unfold has_id at 1. destruct (Product_id x =? Product_id p) eqn:E.
  - destruct Hin as [->|Hin]; [reflexivity|].
    apply Z.eqb_eq in E. exfalso. apply Hx. rewrite E. now apply in_map.
  - destruct Hin as [->|Hin]; [rewrite Z.eqb_refl in E; discriminate|].
    now apply IH.
Qed.

(** X18: a delete that answers "Product deleted successfully!!" has
    removed one row, the first of that id: one row less, users untouched,
    the other ids read as before. With distinct ids in the table the id is
    gone: the read answers "Product not found!!" and so does a second
    delete by the same caller, which changes nothing. *)
Theorem delete_then_get `{Storage} (auth reader : option token) (now : datetime)
    (id : Z) (s s' : Store) :
  route_delete_product auth now id s
  = (Ok (a_str "Product deleted successfully!!"), s') ->
  S (length (products s')) = length (products s)
  /\ users s' = users s
  /\ (forall id', id' <> id ->
        fst (route_get_product_by_id reader id' s')
        = fst (route_get_product_by_id reader id' s))
  /\ (List.NoDup (map Product_id (products s)) ->
        route_get_product_by_id reader id s' = (Ok (a_str "Product not found!!"), s')
        /\ route_delete_product auth now id s'
           = (Ok (a_str "Product not found!!"), s')).
Proof.
  intros Hr.
  apply guard_passed in Hr as Hg. destruct Hg as (usr & Hguard & Hadm & _).
  apply route_delete_product_Ok in Hr as ((old & Hf) & -> & _).
  unfold route_get_product_by_id. cbn [delete_row products users].
  refine (conj _ (conj eq_refl (conj _ _))).
  - now apply length_remove_first with (x := old).
  - intros id' Hne. rewrite !get_product_by_id_run. cbn [products delete_row fst].
    now rewrite find_remove_first_other.
  - intros Hnd.
    pose proof (find_remove_first_same id (products s) Hnd) as Hgone.
    split.
    + rewrite get_product_by_id_run. cbn [products delete_row]. now rewrite Hgone.
    + unfold route_delete_product. rewrite guarded_route.
      pose proof (Depends_require_admin_users auth now (delete_row id s) s eq_refl)
        as Hsame.
      rewrite Hguard in Hsame. cbn [fst] in Hsame.
      destruct (Depends_require_admin auth now (delete_row id s)) as [o s1].
      cbn [fst] in Hsame. subst o.
      unfold delete_product, mbind, db_bind, query_first. rewrite Hadm.
      cbn [negb products delete_row]. now rewrite Hgone.
Qed.

Lemma delete_then_get_witness :
  @route_delete_product unique_keys (Some root_token) 0 7 depot
  = (Ok (a_str "Product deleted successfully!!"),
     mkStore [alice; root; dormant; legacy] [gadget])
  /\ route_get_product_by_id None 7 (mkStore [alice; root; dormant; legacy] [gadget])
     = (Ok (a_str "Product not found!!"),
        mkStore [alice; root; dormant; legacy] [gadget])
  /\ @route_delete_product unique_keys (Some root_token) 0 7
       (mkStore [alice; root; dormant; legacy] [gadget])
     = (Ok (a_str "Product not found!!"),
        mkStore [alice; root; dormant; legacy] [gadget]).
Proof.
  split; [reflexivity|].
  apply (proj2 (proj2 (proj2
           (@delete_then_get unique_keys (Some root_token) None 0 7 depot
              (mkStore [alice; root; dormant; legacy] [gadget]) eq_refl)))).
  simpl. repeat constructor; simpl; intuition discriminate.
Defined.

(** X19: what the reads return. The list is the whole table. The read by
    id returns a stored product of that id when there is one, the first in
    the table, and the text "Product not found!!" exactly when there is
    none; so every listed product can be read back under its id, and with
    distinct ids the read returns that very product. Neither read writes. *)
Theorem reads_consistent (reader : option token) (s : Store) :
  route_get_products reader s = (Ok (a_list (products s)), s)
  /\ (forall id p,
        route_get_product_by_id reader id s = (Ok (a_product p), s) ->
        In p (products s) /\ Product_id p = id)
  /\ (forall id,
        route_get_product_by_id reader id s = (Ok (a_str "Product not found!!"), s)
        <-> (forall p, In p (products s) -> Product_id p <> id))
  /\ (forall p,
        In p (products s) ->
        exists p',
          route_get_product_by_id reader (Product_id p) s = (Ok (a_product p'), s)
          /\ In p' (products s)
          /\ Product_id p' = Product_id p
          /\ (List.NoDup (map Product_id (products s)) -> p' = p)).
Proof.
  unfold route_get_product_by_id.
  refine (conj eq_refl (conj _ (conj _ _))).
  - intros id p. rewrite get_product_by_id_run.
    destruct (find (has_id id) (products s)) as [q|] eqn:Ef; [|discriminate].
    intros Hr. injection Hr as ->. apply find_some in Ef as [Hin Hid].
    split; [exact Hin | now apply Z.eqb_eq in Hid].
  - intros id. rewrite get_product_by_id_run. split.
    + destruct (find (has_id id) (products s)) as [q|] eqn:Ef; [discriminate|].
      intros _ p Hin Hid. pose proof (find_none _ _ Ef p Hin) as Hb.
      unfold has_id in Hb. apply Z.eqb_neq in Hb. contradiction.
    + intros Habsent. now rewrite (find_has_id_None id (products s) Habsent).
  - intros p Hin. rewrite get_product_by_id_run.
    destruct (find (has_id (Product_id p)) (products s)) as [q|] eqn:Ef.
    + exists q. apply find_some in Ef as Hq. destruct Hq as [Hqin Hqid].
      apply Z.eqb_eq in Hqid. repeat split; try assumption.
      intros Hnd. rewrite (find_has_id_NoDup p (products s) Hin Hnd) in Ef. congruence.
    + exfalso. pose proof (find_none _ _ Ef p Hin) as Hb.
      unfold has_id in Hb. now rewrite Z.eqb_refl in Hb.
Qed.

Lemma reads_consistent_witness :
  route_get_product_by_id None 8 depot = (Ok (a_product gadget), depot)
  /\ route_get_product_by_id (Some alice_token) 99 depot
     = (Ok (a_str "Product not found!!"), depot).
Proof.
  pose proof (reads_consistent (Some alice_token) depot) as (_ & _ & Hnone & _).
  split; [reflexivity|].
  apply Hnone. intros p [<-|[<-|[]]]; discriminate.
Defined.

(** X20: each route keeps to its table. Whatever the outcome, the three
    product writes leave the users as they were, a registration leaves the
    products as they were, and a login writes nothing at all. *)
Theorem tables_kept_apart `{PasswordHasher} `{Storage} (auth : option token)
    (now : datetime) (s : Store) :
  (forall product, users (snd (route_add_product auth now product s)) = users s)
  /\ (forall id updated,
        users (snd (route_update_product auth now id updated s)) = users s)
  /\ (forall id, users (snd (route_delete_product auth now id s)) = users s)
  /\ (forall user_in salt, products (snd (register user_in salt s)) = products s)
  /\ (forall u p, snd (login_for_access_token u p now s) = s).
Proof.
  assert (Hguarded : forall handler : User -> db content,
            (forall usr, users (snd (handler usr s)) = users s) ->
            users (snd ((Depends_require_admin auth now ≫= handler) s)) = users s).
  { intros handler Hh. rewrite guarded_route.
    destruct (Depends_require_admin auth now s) as [[usr|e] s1]; [apply Hh | reflexivity]. }
  refine (conj _ (conj _ (conj _ (conj _ _)))).
  - intros product. apply Hguarded. intros usr.
    unfold add_product, mbind, db_bind, db_commit.
    destruct (is_superuser usr); [|reflexivity].
    destruct (integrity (add_row product s)); reflexivity.
  - intros id updated. apply Hguarded. intros usr.
    unfold update_product, mbind, db_bind, db_commit, query_first.
    destruct (is_superuser usr); [|reflexivity]. cbn [negb].
    destruct (find (has_id id) (products s)); [|reflexivity].
    destruct (integrity (update_row id updated s)); reflexivity.
  - intros id. apply Hguarded. intros usr.
    unfold delete_product, mbind, db_bind, db_commit, query_first.
    destruct (is_superuser usr); [|reflexivity]. cbn [negb].
    destruct (find (has_id id) (products s)); [|reflexivity].
    destruct (integrity (delete_row id s)); reflexivity.
  - intros user_in salt. unfold register. unfold mbind at 1. unfold db_bind.
    rewrite get_user_by_username_run.
    destruct (find _ (users s)); [reflexivity|].
    unfold create_user, mbind, db_bind, db_commit.
    match goal with |- context [integrity ?st] => destruct (integrity st) end;
      reflexivity.
  - intros u p. rewrite login_for_access_token_unfold, authenticate_user_unfold.
    destruct (find _ (users s)) as [usr|]; [|reflexivity].
    destruct (verify_password p (hashed_password usr)) as [[|]|e]; reflexivity.
Qed.

(** ** Seeding *)

Lemma add_rows_run (ps : list Product) (s : Store) :
  add_rows ps s = mkStore (users s) (products s ++ ps).
Proof.
  unfold add_rows. revert s.
  induction ps as [|p ps IH]; intros s; simpl.
  - rewrite app_nil_r. now destruct s.
  - rewrite IH. unfold add_row. simpl. now rewrite <- app_assoc.
Qed.

Lemma init_db_run `{Storage} (default_products : list Product) (s : Store) :
  init_db default_products s =
  match products s with
  | [] =>
      if integrity (mkStore (users s) default_products)
      then (Ok tt, mkStore (users s) default_products)
      else (Raise IntegrityError, s)
  | _ :: _ => if integrity s then (Ok tt, s) else (Raise IntegrityError, s)
  end.
Proof.
  unfold init_db, mbind, db_bind, query_count, db_commit.
  destruct s as [us ps]. cbn [products users]. destruct ps as [|p ps].
  - replace (Z.of_nat (length (@nil Product)) =? 0) with true by reflexivity.
    rewrite add_rows_run. reflexivity.
  - replace (Z.of_nat (length (p :: ps)) =? 0) with false by reflexivity.
    reflexivity.
Qed.

(** X21: [init_db] seeds an empty product table only. On an empty table a
    run that returns has stored exactly the default products, in order; on
    a table with rows it changes nothing; so after one run that returned, a
    second run returns and changes nothing. The users are never touched. *)
Theorem init_db_seeds_once `{Storage} (default_products : list Product)
    (s s' : Store) :
  init_db default_products s = (Ok tt, s') ->
  (products s = [] -> products s' = default_products)
  /\ (products s <> [] -> s' = s)
  /\ users s' = users s
  /\ init_db default_products s' = (Ok tt, s').
Proof.
  rewrite !init_db_run.
  destruct (products s) as [|p ps] eqn:Eps.
  - destruct (integrity (mkStore (users s) default_products)) eqn:Ei; [|discriminate].
    intros Hr. injection Hr as <-. cbn [products users].
    refine (conj (fun _ => eq_refl) (conj _ (conj eq_refl _))).
    + intros Hne. now contradiction Hne.
    + destruct default_products as [|d ds]; now rewrite Ei.
  - destruct (integrity s) eqn:Ei; [|discriminate].
    intros Hr. injection Hr as <-.
    refine (conj _ (conj (fun _ => eq_refl) (conj eq_refl _))).
    + discriminate.
    + now rewrite Eps, Ei.
Qed.

Lemma init_db_seeds_once_witness :
  @init_db unique_keys [widget; gadget] (mkStore [alice] [])
  = (Ok tt, mkStore [alice] [widget; gadget])
  /\ @init_db unique_keys [widget; gadget] (mkStore [alice] [widget; gadget])
     = (Ok tt, mkStore [alice] [widget; gadget]).
Proof.
  split; [reflexivity|].
  apply (@init_db_seeds_once unique_keys [widget; gadget] (mkStore [alice] [])
           (mkStore [alice] [widget; gadget])).
  reflexivity.
Defined.

(** * The flow at the boundary of the process *)

(** ** Running [Wire] *)

Lemma wire_get_user_by_username_run `{Wire.Boundary} (u : string) (s : Store) :
  Wire.get_user_by_username u s =
  match Wire.adapt_str u with
  | Ok _ => (Ok (find (fun x => String.eqb (username x) u) (users s)), s)
  | Raise e => (Raise e, s)
  end.
Proof.
  unfold Wire.get_user_by_username, mbind, db_bind, lift, query_first.
  destruct (Wire.adapt_str u); reflexivity.
Qed.

Lemma wire_authenticate_user_unfold `{Wire.Boundary} `{PasswordHasher}
    (u p : string) (s : Store) :
  Wire.authenticate_user u p s =
  match Wire.get_user_by_username u s with
  | (Ok None, s') => (Ok None, s')
  | (Ok (Some usr), s') =>
      match verify_password p (hashed_password usr) with
      | Ok true => (Ok (Some usr), s')
      | Ok false => (Ok None, s')
      | Raise e => (Raise e, s')
      end
  | (Raise e, s') => (Raise e, s')
  end.
Proof.
  unfold Wire.authenticate_user. unfold mbind at 1. unfold db_bind.
  destruct (Wire.get_user_by_username u s) as [[[usr|]|e] s']; try reflexivity.
  unfold mbind, db_bind, lift.
  destruct (verify_password p (hashed_password usr)) as [[|]|e]; reflexivity.
Qed.

Lemma wire_login_unfold `{Wire.Boundary} `{PasswordHasher} (u p : string)
    (now : datetime) (s : Store) :
  Wire.login_for_access_token u p now s =
  match Wire.authenticate_user u p s with
  | (Ok (Some usr), s') =>
      match Wire.create_access_token
              (Wire.mkClaims (Some (username usr))
                             (Some (Wire.JBool (is_superuser usr))) None) None now with
      | Ok access_token => (Ok (access_token, "bearer"), s')
      | Raise e => (Raise e, s')
      end
  | (Ok None, s') =>
      (Raise (HTTPException 401 "Incorrect username or password"
                            [("WWW-Authenticate", "Bearer")]), s')
  | (Raise e, s') => (Raise e, s')
  end.
Proof.
  unfold Wire.login_for_access_token. unfold mbind at 1. unfold db_bind.
  destruct (Wire.authenticate_user u p s) as [[[usr|]|e] s']; reflexivity.
Qed.

Lemma wire_jwt_decode_raises (t : Wire.token) (key : string) (algs : list string)
    (now : datetime) (e : exn) :
  Wire.jwt_decode t key algs now = Raise e -> exists k, e = JWTError k.
Proof.
  unfold Wire.jwt_decode. intros Hd.
  repeat case_match; simplify_eq; eauto.
Qed.

Lemma wire_jwt_decode_Ok (t : Wire.token) (now : datetime) (payload : Wire.claims Z) :
  Wire.jwt_decode t SECRET_KEY [ALGORITHM] now = Ok payload <->
  exists key,
    t = Wire.JWS ALGORITHM key payload
    /\ Wire.same_hmac_key key SECRET_KEY = true
    /\ (forall exp, Wire.claim_exp payload = Some exp -> timegm now <= exp).
Proof.
  unfold Wire.jwt_decode. split.
  - intros Hd. destruct t as [alg k p|raw]; [|discriminate].
    destruct (existsb (String.eqb alg) [ALGORITHM]) eqn:Ealg; simpl in Hd; [|discriminate].
    destruct (Wire.same_hmac_key k SECRET_KEY) eqn:Ek; simpl in Hd; [|discriminate].
    simpl in Ealg. rewrite orb_false_r in Ealg. apply String.eqb_eq in Ealg. subst alg.
    exists k. destruct (Wire.claim_exp p) as [exp|] eqn:Eexp.
    + destruct (exp <? timegm now) eqn:Elt; [discriminate|].
      injection Hd as <-. repeat split; try assumption.
      intros exp' Hexp'. rewrite Eexp in Hexp'. injection Hexp' as <-.
      now apply Z.ltb_ge in Elt.
    + injection Hd as <-. repeat split; try assumption.
      intros exp' Hexp'. rewrite Eexp in Hexp'. discriminate.
  - intros (key & -> & Hkey & Hexp).
    replace (existsb (String.eqb ALGORITHM) [ALGORITHM]) with true by reflexivity.
    rewrite Hkey. cbn [negb].
    destruct (Wire.claim_exp payload) as [exp|]; [|reflexivity].
    specialize (Hexp exp eq_refl).
    destruct (exp <? timegm now) eqn:E; [apply Z.ltb_lt in E; lia | reflexivity].
Qed.

(** What [get_current_user] does, step by step. *)
Lemma wire_get_current_user_unfold `{Wire.Boundary} (t : Wire.token) (now : datetime)
    (s : Store) :
  Wire.get_current_user t now s =
  match Wire.jwt_decode t SECRET_KEY [ALGORITHM] now with
  | Raise _ => (Raise credentials_exception, s)
  | Ok payload =>
      match Wire.claim_sub payload with
      | None => (Raise credentials_exception, s)
      | Some u =>
          match Wire.TokenData_validate u
                  (default (Wire.JBool false) (Wire.claim_is_superuser payload)) with
          | Raise (JWTError _) => (Raise credentials_exception, s)
          | Raise e => (Raise e, s)
          | Ok _ =>
              match Wire.get_user_by_username u s with
              | (Ok (Some usr), _) => (Ok usr, s)
              | (Ok None, _) => (Raise credentials_exception, s)
              | (Raise e, _) => (Raise e, s)
              end
          end
      end
  end.
Proof.
  unfold Wire.get_current_user, Wire.decode_token_data.
  unfold mbind at 1. unfold db_bind, lift.
  destruct (Wire.jwt_decode t SECRET_KEY [ALGORITHM] now) as [payload|e] eqn:Ed.
  - cbn [mbind outcome_bind].
    destruct (Wire.claim_sub payload) as [u|]; [|reflexivity].
    destruct (Wire.TokenData_validate u _) as [v|e]; cbn [mbind outcome_bind].
    + cbn [except_JWTError td_username]. unfold mbind, db_bind.
      rewrite wire_get_user_by_username_run.
      destruct (Wire.adapt_str u); [|reflexivity].
      destruct (find _ (users s)); reflexivity.
    + destruct e; reflexivity.
  - apply wire_jwt_decode_raises in Ed as [k ->]. reflexivity.
Qed.

Lemma wire_get_current_user_state `{Wire.Boundary} (t : Wire.token) (now : datetime)
    (s : Store) :
  snd (Wire.get_current_user t now s) = s.
Proof.
  rewrite wire_get_current_user_unfold.
  destruct (Wire.jwt_decode t SECRET_KEY [ALGORITHM] now) as [payload|e]; [|reflexivity].
  destruct (Wire.claim_sub payload) as [u|]; [|reflexivity].
  destruct (Wire.TokenData_validate u _) as [v|[]]; try reflexivity.
  destruct (Wire.get_user_by_username u s) as [[[usr|]|e] s']; reflexivity.
Qed.

Lemma wire_guard_unfold `{Wire.Boundary} (t : Wire.token) (now : datetime) (s : Store) :
  Wire.Depends_require_admin (Some t) now s =
  match Wire.get_current_user t now s with
  | (Ok usr, _) =>
      (if is_superuser usr then Ok usr
       else Raise (HTTPException 403 "Admin privileges required" []), s)
  | (Raise e, _) => (Raise e, s)
  end.
Proof.
  pose proof (wire_get_current_user_state t now s) as Hs.
  unfold Wire.Depends_require_admin, Wire.Depends_get_current_user, mbind, db_bind, lift.
  cbn [Wire.oauth2_scheme].
  destruct (Wire.get_current_user t now s) as [[usr|e] s1]; cbn [snd] in Hs; subst s1.
  - unfold require_admin. destruct (is_superuser usr); reflexivity.
  - reflexivity.
Qed.

(** ** Authentication *)

(** C4, as amended: for every username the database driver takes as a query
    parameter and every password, [authenticate_user] answers [None] both
    when no stored user has the username and when the stored user's hash
    rejects the password, and the login route turns both into one and the
    same 401; when the password verifies, the stored user is returned. The
    store is never written. *)
Theorem authenticate_accepted_username `{Wire.Boundary} `{PasswordHasher}
    (u p : string) (now : datetime) (s : Store) :
  (Wire.adapt_str u = Ok tt ->
   (forall usr, In usr (users s) -> username usr <> u) ->
   Wire.authenticate_user u p s = (Ok None, s)
   /\ Wire.login_for_access_token u p now s
      = (Raise (HTTPException 401 "Incorrect username or password"
                              [("WWW-Authenticate", "Bearer")]), s))
  /\ (forall usr,
        Wire.get_user_by_username u s = (Ok (Some usr), s) ->
        verify_password p (hashed_password usr) = Ok false ->
        Wire.authenticate_user u p s = (Ok None, s)
        /\ Wire.login_for_access_token u p now s
           = (Raise (HTTPException 401 "Incorrect username or password"
                                   [("WWW-Authenticate", "Bearer")]), s))
  /\ (forall usr,
        Wire.get_user_by_username u s = (Ok (Some usr), s) ->
        verify_password p (hashed_password usr) = Ok true ->
        Wire.authenticate_user u p s = (Ok (Some usr), s)
        /\ In usr (users s) /\ username usr = u).
Proof.
  rewrite wire_login_unfold, wire_authenticate_user_unfold.
  refine (conj _ (conj _ _)).
  - intros Hadapt Habsent. rewrite wire_get_user_by_username_run, Hadapt.
    apply find_username_None in Habsent. rewrite Habsent. auto.
  - intros usr Hf Hv. rewrite Hf, Hv. auto.
  - intros usr Hf Hv. rewrite Hf, Hv. split; [reflexivity|].
    rewrite wire_get_user_by_username_run in Hf.
    destruct (Wire.adapt_str u); [|discriminate].
    injection Hf as Hf. now apply find_username_Some in Hf.
Qed.

Lemma authenticate_accepted_username_witness :
  (@Wire.authenticate_user psycopg2_pydantic plain_hasher "ghost" "pw123" shop
   = (Ok None, shop)
   /\ @Wire.authenticate_user psycopg2_pydantic plain_hasher "alice" "wrong" shop
      = (Ok None, shop))
  /\ @Wire.authenticate_user psycopg2_pydantic plain_hasher "alice" "pw123" shop
     = (Ok (Some alice), shop).
Proof.
  pose proof (@authenticate_accepted_username psycopg2_pydantic plain_hasher
                "ghost" "pw123" 0 shop) as [Habsent _].
  pose proof (@authenticate_accepted_username psycopg2_pydantic plain_hasher
                "alice" "wrong" 0 shop) as [_ [Hwrong _]].
  pose proof (@authenticate_accepted_username psycopg2_pydantic plain_hasher
                "alice" "pw123" 0 shop) as [_ [_ Hright]].
  split; [split|].
  - apply Habsent; [reflexivity|]. intros usr [<-|[<-|[]]]; discriminate.
  - apply (Hwrong alice); reflexivity.
  - apply (Hright alice); reflexivity.
Defined.

(** C4, as stated, fails: no user of [shop] has the username [nul_name],
    which holds a NUL character, yet [authenticate_user] does not answer
    [None]: the lookup raises [ValueError] and the login is a 500. *)
Lemma authenticate_nul_username_raises :
  find (fun x => String.eqb (username x) nul_name) (users shop) = None
  /\ @Wire.authenticate_user psycopg2_pydantic plain_hasher nul_name "pw123" shop
     = (Raise (OtherError "ValueError"), shop)
  /\ @Wire.login_for_access_token psycopg2_pydantic plain_hasher nul_name "pw123" 0 shop
     = (Raise (OtherError "ValueError"), shop)
  /\ status 200 (Raise (A:=token * string) (OtherError "ValueError")) = 500.
Proof. repeat split; reflexivity. Qed.

(** ** Resolving the caller *)

(** C8, as amended: for a token that decodes and verifies, whose claims
    [TokenData] accepts and whose subject the database driver takes as a
    query parameter, [get_current_user] raises [credentials_exception] when
    no stored user has the subject, which is the very exception it raises
    for a token that fails to decode; it returns a user exactly when the
    lookup of the subject finds one, and then returns that stored user. The
    store is never written. *)
Theorem subject_lookup `{Wire.Boundary} (t : Wire.token) (now : datetime)
    (s : Store) (payload : Wire.claims Z) (u : string) (validated : option bool) :
  Wire.jwt_decode t SECRET_KEY [ALGORITHM] now = Ok payload ->
  Wire.claim_sub payload = Some u ->
  Wire.TokenData_validate u
    (default (Wire.JBool false) (Wire.claim_is_superuser payload)) = Ok validated ->
  Wire.adapt_str u = Ok tt ->
  ((forall usr, In usr (users s) -> username usr <> u) ->
   Wire.get_current_user t now s = (Raise credentials_exception, s))
  /\ (forall bad e,
        Wire.jwt_decode bad SECRET_KEY [ALGORITHM] now = Raise e ->
        Wire.get_current_user bad now s = (Raise credentials_exception, s))
  /\ (forall usr s',
        Wire.get_current_user t now s = (Ok usr, s') <->
        s' = s /\ Wire.get_user_by_username u s = (Ok (Some usr), s)).
Proof.
  intros Hdec Hsub Hval Hadapt.
  assert (Hrun : Wire.get_current_user t now s =
                 match find (fun x => String.eqb (username x) u) (users s) with
                 | Some usr => (Ok usr, s)
                 | None => (Raise credentials_exception, s)
                 end).
  { rewrite wire_get_current_user_unfold, Hdec, Hsub, Hval.
    rewrite wire_get_user_by_username_run, Hadapt.
    destruct (find _ (users s)); reflexivity. }
  refine (conj _ (conj _ _)).
  - intros Habsent. apply find_username_None in Habsent. now rewrite Hrun, Habsent.
  - intros bad e Hbad. rewrite wire_get_current_user_unfold. now rewrite Hbad.
  - intros usr s'. rewrite Hrun, wire_get_user_by_username_run, Hadapt.
    destruct (find _ (users s)) as [found|]; split.
    + intros Hr. injection Hr as -> ->. auto.
    + intros [-> Hf]. injection Hf as ->. reflexivity.
    + discriminate.
    + intros [_ Hf]. discriminate.
Qed.

Lemma subject_lookup_witness :
  @Wire.get_current_user psycopg2_pydantic (wire_token "ghost" (Wire.JBool true)) 0 shop
  = (Raise credentials_exception, shop)
  /\ @Wire.get_current_user psycopg2_pydantic (Wire.NotJWS "garbage") 0 shop
     = (Raise credentials_exception, shop)
  /\ @Wire.get_current_user psycopg2_pydantic (wire_token "alice" (Wire.JBool false))
       0 shop
     = (Ok alice, shop).
Proof.
  pose proof (@subject_lookup psycopg2_pydantic (wire_token "ghost" (Wire.JBool true))
                0 shop
                (Wire.mkClaims (Some "ghost") (Some (Wire.JBool true)) (Some 3600))
                "ghost" (Some true) eq_refl eq_refl eq_refl eq_refl)
    as (Hghost & Hbad & _).
  pose proof (@subject_lookup psycopg2_pydantic (wire_token "alice" (Wire.JBool false))
                0 shop
                (Wire.mkClaims (Some "alice") (Some (Wire.JBool false)) (Some 3600))
                "alice" (Some false) eq_refl eq_refl eq_refl eq_refl)
    as (_ & _ & Halice).
  split; [|split].
  - apply Hghost. intros usr [<-|[<-|[]]]; discriminate.
  - apply (Hbad (Wire.NotJWS "garbage") (JWTError JWTError_base)). reflexivity.
  - apply Halice. split; reflexivity.
Defined.

(** C8, as stated, fails: both tokens decode and verify and name a subject
    that no user of [shop] has, yet neither gets [credentials_exception].
    The subject with a NUL character makes the lookup raise [ValueError];
    the [is_superuser] claim "maybe" makes [TokenData] raise
    [ValidationError]. Both are answered with a 500. *)
Lemma subject_lookup_raises_otherwise :
  Wire.jwt_decode (wire_token nul_name (Wire.JBool false)) SECRET_KEY [ALGORITHM] 0
  = Ok (Wire.mkClaims (Some nul_name) (Some (Wire.JBool false)) (Some 3600))
  /\ @Wire.get_current_user psycopg2_pydantic (wire_token nul_name (Wire.JBool false))
       0 shop
     = (Raise (OtherError "ValueError"), shop)
  /\ Wire.jwt_decode (wire_token "ghost" (Wire.JStr "maybe")) SECRET_KEY [ALGORITHM] 0
     = Ok (Wire.mkClaims (Some "ghost") (Some (Wire.JStr "maybe")) (Some 3600))
  /\ @Wire.get_current_user psycopg2_pydantic (wire_token "ghost" (Wire.JStr "maybe"))
       0 shop
     = (Raise (OtherError "ValidationError"), shop).
Proof. repeat split; reflexivity. Qed.

(** C10, as amended: the value of the [is_superuser] claim plays no part in
    authorization beyond its validation. Two tokens that both decode and
    verify, carry the same subject and have [is_superuser] claims that
    [TokenData] accepts give, against the same store, the same result of
    [get_current_user] and the same result of the admin guard. *)
Theorem accepted_is_superuser_claim_unused `{Wire.Boundary} (t1 t2 : Wire.token)
    (now : datetime) (s : Store) (p1 p2 : Wire.claims Z) :
  Wire.jwt_decode t1 SECRET_KEY [ALGORITHM] now = Ok p1 ->
  Wire.jwt_decode t2 SECRET_KEY [ALGORITHM] now = Ok p2 ->
  Wire.claim_sub p1 = Wire.claim_sub p2 ->
  (forall u, Wire.claim_sub p1 = Some u ->
     exists v1 v2,
       Wire.TokenData_validate u
         (default (Wire.JBool false) (Wire.claim_is_superuser p1)) = Ok v1
       /\ Wire.TokenData_validate u
            (default (Wire.JBool false) (Wire.claim_is_superuser p2)) = Ok v2) ->
  Wire.get_current_user t1 now s = Wire.get_current_user t2 now s
  /\ Wire.Depends_require_admin (Some t1) now s
     = Wire.Depends_require_admin (Some t2) now s.
Proof.
  intros H1 H2 Hsub Hval.
  assert (Hg : Wire.get_current_user t1 now s = Wire.get_current_user t2 now s).
  { rewrite !wire_get_current_user_unfold, H1, H2, <- Hsub.
    destruct (Wire.claim_sub p1) as [u|]; [|reflexivity].
    destruct (Hval u eq_refl) as (v1 & v2 & -> & ->). reflexivity. }
  split; [exact Hg|]. rewrite !wire_guard_unfold. now rewrite Hg.
Qed.

Lemma accepted_is_superuser_claim_unused_witness :
  @Wire.get_current_user psycopg2_pydantic (wire_token "alice" (Wire.JBool true)) 0 shop
  = @Wire.get_current_user psycopg2_pydantic (wire_token "alice" Wire.JNull) 0 shop
  /\ @Wire.Depends_require_admin psycopg2_pydantic
       (Some (wire_token "alice" (Wire.JBool true))) 0 shop
     = @Wire.Depends_require_admin psycopg2_pydantic
         (Some (wire_token "alice" Wire.JNull)) 0 shop.
Proof.
  apply (@accepted_is_superuser_claim_unused psycopg2_pydantic
           (wire_token "alice" (Wire.JBool true)) (wire_token "alice" Wire.JNull)
           0 shop
           (Wire.mkClaims (Some "alice") (Some (Wire.JBool true)) (Some 3600))
           (Wire.mkClaims (Some "alice") (Some Wire.JNull) (Some 3600)));
    try reflexivity.
  intros u Hu. injection Hu as <-. exists (Some true), None. split; reflexivity.
Defined.

(** C10, as stated, fails: two well-signed, unexpired tokens for [root]
    that differ only in their [is_superuser] claim, [true] and the string
    "maybe", give different results against the same store: the first
    passes the admin guard, the second raises [ValidationError]. *)
Lemma is_superuser_claim_can_break_the_request :
  @Wire.get_current_user psycopg2_pydantic (wire_token "root" (Wire.JBool true)) 0 shop
  = (Ok root, shop)
  /\ @Wire.Depends_require_admin psycopg2_pydantic
       (Some (wire_token "root" (Wire.JBool true))) 0 shop
     = (Ok root, shop)
  /\ @Wire.get_current_user psycopg2_pydantic (wire_token "root" (Wire.JStr "maybe"))
       0 shop
     = (Raise (OtherError "ValidationError"), shop)
  /\ @Wire.Depends_require_admin psycopg2_pydantic
       (Some (wire_token "root" (Wire.JStr "maybe"))) 0 shop
     = (Raise (OtherError "ValidationError"), shop).
Proof. repeat split; reflexivity. Qed.

(** ** Which tokens are let in *)

(** X6: [get_current_user] returns a user exactly when the token is a JWS
    under [ALGORITHM] whose key HMAC cannot tell from [SECRET_KEY], is not
    past its expiry second (if it has one), has an [is_superuser] claim
    that [TokenData] accepts, and has for subject a username that the
    driver takes as a parameter and that a stored user has; it then
    returns the first stored user of that name and leaves the store as it
    was. *)
Theorem get_current_user_accepts `{Wire.Boundary} (t : Wire.token) (now : datetime)
    (s s' : Store) (usr : User) :
  Wire.get_current_user t now s = (Ok usr, s') <->
  s' = s
  /\ exists key payload validated,
       t = Wire.JWS ALGORITHM key payload
       /\ Wire.same_hmac_key key SECRET_KEY = true
       /\ (forall exp, Wire.claim_exp payload = Some exp -> timegm now <= exp)
       /\ Wire.claim_sub payload = Some (username usr)
       /\ Wire.TokenData_validate (username usr)
            (default (Wire.JBool false) (Wire.claim_is_superuser payload))
          = Ok validated
       /\ Wire.adapt_str (username usr) = Ok tt
       /\ find (fun x => String.eqb (username x) (username usr)) (users s) = Some usr.
Proof.
  rewrite wire_get_current_user_unfold. split.
  - destruct (Wire.jwt_decode t SECRET_KEY [ALGORITHM] now) as [payload|e] eqn:Ed;
      [|discriminate].
    apply wire_jwt_decode_Ok in Ed as (key & -> & Hkey & Hexp).
    destruct (Wire.claim_sub payload) as [u|] eqn:Hsub; [|discriminate].
    destruct (Wire.TokenData_validate u _) as [v|e] eqn:Hval;
      [|destruct e; discriminate].
    rewrite wire_get_user_by_username_run.
    destruct (Wire.adapt_str u) as [[]|e] eqn:Hadapt; [|discriminate].
    destruct (find _ (users s)) as [found|] eqn:Hf; [|discriminate].
    intros Hr. injection Hr as -> ->.
    apply find_username_Some in Hf as Hu. destruct Hu as [_ <-].
    split; [reflexivity|]. exists key, payload, v. auto 10.
  - intros (-> & key & payload & v & -> & Hkey & Hexp & Hsub & Hval & Hadapt & Hf).
    assert (Hd : Wire.jwt_decode (Wire.JWS ALGORITHM key payload) SECRET_KEY
                   [ALGORITHM] now = Ok payload).
    { apply wire_jwt_decode_Ok. exists key. auto. }
    rewrite Hd, Hsub, Hval, wire_get_user_by_username_run, Hadapt, Hf. reflexivity.
Qed.

(** [SECRET_KEY] with a NUL byte after it signs like [SECRET_KEY]. *)
Example padded_key_accepted :
  @Wire.get_current_user psycopg2_pydantic
    (Wire.JWS ALGORITHM padded_key
       (Wire.mkClaims (Some "alice") (Some (Wire.JBool false)) (Some 3600))) 0 shop
  = (Ok alice, shop).
Proof. reflexivity. Qed.

(** X7: a bearer string is turned away with the one 401
    [credentials_exception], before its claims are validated or the store
    is asked, and without a write, when it is no JWS, when its key is one
    HMAC tells from [SECRET_KEY], when its algorithm is not [ALGORITHM],
    when it has no subject, and when it is past its expiry second. *)
Theorem get_current_user_rejects `{Wire.Boundary} (now : datetime) (s : Store)
    (payload : Wire.claims Z) :
  let rejected t :=
    Wire.get_current_user t now s = (Raise credentials_exception, s) in
  (forall raw, rejected (Wire.NotJWS raw))
  /\ (forall alg key,
        Wire.same_hmac_key key SECRET_KEY = false ->
        rejected (Wire.JWS alg key payload))
  /\ (forall alg key, alg <> ALGORITHM -> rejected (Wire.JWS alg key payload))
  /\ (forall key,
        Wire.claim_sub payload = None -> rejected (Wire.JWS ALGORITHM key payload))
  /\ (forall key exp,
        Wire.claim_exp payload = Some exp -> exp < timegm now ->
        rejected (Wire.JWS ALGORITHM key payload))
  /\ status 200 (Raise (A:=User) credentials_exception) = 401.
Proof.
  assert (Hfail : forall t e,
            Wire.jwt_decode t SECRET_KEY [ALGORITHM] now = Raise e ->
            Wire.get_current_user t now s = (Raise credentials_exception, s)).
  { intros t e Hd. rewrite wire_get_current_user_unfold. now rewrite Hd. }
  cbv zeta. refine (conj _ (conj _ (conj _ (conj _ (conj _ eq_refl))))).
  - intros raw. now apply Hfail with (e := JWTError JWTError_base).
  - intros alg key Hkey. apply Hfail with (e := JWTError JWTError_base).
    unfold Wire.jwt_decode. rewrite Hkey.
    destruct (existsb (String.eqb alg) [ALGORITHM]); reflexivity.
  - intros alg key Halg. apply Hfail with (e := JWTError JWTError_base).
    unfold Wire.jwt_decode. cbn [existsb]. rewrite orb_false_r.
    destruct (String.eqb alg ALGORITHM) eqn:E; [|reflexivity].
    apply String.eqb_eq in E. contradiction.
  - intros key Hsub. rewrite wire_get_current_user_unfold.
    destruct (Wire.jwt_decode _ SECRET_KEY [ALGORITHM] now) as [p|e] eqn:Ed;
      [|reflexivity].
    apply wire_jwt_decode_Ok in Ed as (k & Ht & _). injection Ht as _ <-.
    now rewrite Hsub.
  - intros key exp Hexp Hlt.
    destruct (Wire.jwt_decode (Wire.JWS ALGORITHM key payload) SECRET_KEY
                [ALGORITHM] now) as [p|e] eqn:Ed.
    + apply wire_jwt_decode_Ok in Ed as (k & Ht & _ & Hnot). injection Ht as _ <-.
      specialize (Hnot exp Hexp). lia.
    + now apply Hfail with (e := e).
Qed.

Lemma get_current_user_rejects_witness :
  @Wire.get_current_user psycopg2_pydantic (Wire.NotJWS "") 0 shop
  = (Raise credentials_exception, shop)
  /\ @Wire.get_current_user psycopg2_pydantic
       (Wire.JWS ALGORITHM "guessed"
          (Wire.mkClaims (Some "root") (Some (Wire.JBool true)) (Some 3600))) 0 shop
     = (Raise credentials_exception, shop)
  /\ @Wire.get_current_user psycopg2_pydantic
       (Wire.JWS "none" SECRET_KEY
          (Wire.mkClaims (Some "root") (Some (Wire.JBool true)) (Some 3600))) 0 shop
     = (Raise credentials_exception, shop)
  /\ @Wire.get_current_user psycopg2_pydantic (wire_token "root" (Wire.JBool true))
       (3601 * one_second) shop
     = (Raise credentials_exception, shop).
Proof.
  pose proof (@get_current_user_rejects psycopg2_pydantic 0 shop
                (Wire.mkClaims (Some "root") (Some (Wire.JBool true)) (Some 3600)))
    as (Hraw & Hkey & Halg & _).
  pose proof (@get_current_user_rejects psycopg2_pydantic (3601 * one_second) shop
                (Wire.mkClaims (Some "root") (Some (Wire.JBool true)) (Some 3600)))
    as (_ & _ & _ & _ & Hexp & _).
  split; [apply Hraw|]. split; [apply Hkey; reflexivity|].
  split; [apply Halg; discriminate|].
  apply (Hexp SECRET_KEY 3600); [reflexivity | vm_compute; reflexivity].
Defined.

(** ** Issuing *)

Lemma wire_create_access_token_unfold (data : Wire.claims datetime)
    (delta : option timedelta) (issued : datetime) :
  Wire.create_access_token data delta issued =
  let expire :=
    issued + or_default delta (timedelta_minutes ACCESS_TOKEN_EXPIRE_MINUTES) in
  if Wire.datetime_in_range expire
  then Ok (Wire.JWS ALGORITHM SECRET_KEY
             (Wire.mkClaims (Wire.claim_sub data) (Wire.claim_is_superuser data)
                            (Some (timegm expire))))
  else Raise (OtherError "OverflowError").
Proof.
  unfold Wire.create_access_token, Wire.datetime_add. cbv zeta.
  destruct (Wire.datetime_in_range _); reflexivity.
Qed.

(** X8: the lifetime [create_access_token] gives a token. A delta of zero
    is falsy and is replaced by the 60 minutes, as a missing delta is; any
    other delta, negative ones included, is added to the time of issue.
    When the sum is a [datetime] the token carries its whole seconds as
    [exp], over any [exp] the data had, and keeps the other claims; when it
    is not, the call raises [OverflowError]. *)
Theorem create_access_token_lifetime (data : Wire.claims datetime)
    (issued : datetime) :
  Wire.create_access_token data (Some 0) issued
  = Wire.create_access_token data None issued
  /\ (Wire.datetime_in_range (issued + timedelta_minutes 60) = true ->
        Wire.create_access_token data None issued
        = Ok (Wire.JWS ALGORITHM SECRET_KEY
                (Wire.mkClaims (Wire.claim_sub data) (Wire.claim_is_superuser data)
                               (Some (timegm issued + 3600)))))
  /\ (forall d, d <> 0 ->
        Wire.datetime_in_range (issued + d) = true ->
        Wire.create_access_token data (Some d) issued
        = Ok (Wire.JWS ALGORITHM SECRET_KEY
                (Wire.mkClaims (Wire.claim_sub data) (Wire.claim_is_superuser data)
                               (Some (timegm (issued + d))))))
  /\ (forall d, d <> 0 ->
        Wire.datetime_in_range (issued + d) = false ->
        Wire.create_access_token data (Some d) issued
        = Raise (OtherError "OverflowError"))
  /\ (forall delta stale,
        Wire.create_access_token
          (Wire.mkClaims (Wire.claim_sub data) (Wire.claim_is_superuser data) stale)
          delta issued
        = Wire.create_access_token data delta issued).
Proof.
  refine (conj eq_refl (conj _ (conj _ (conj _ _)))).
  - intros Hr. rewrite wire_create_access_token_unfold. cbv zeta. cbn [or_default].
    change (timedelta_minutes ACCESS_TOKEN_EXPIRE_MINUTES) with (timedelta_minutes 60).
    now rewrite Hr, timegm_after_minutes.
  - intros d Hd Hr. rewrite wire_create_access_token_unfold. cbv zeta. cbn [or_default].
    destruct (d =? 0) eqn:E; [apply Z.eqb_eq in E; contradiction|]. now rewrite Hr.
  - intros d Hd Hr. rewrite wire_create_access_token_unfold. cbv zeta. cbn [or_default].
    destruct (d =? 0) eqn:E; [apply Z.eqb_eq in E; contradiction|]. now rewrite Hr.
  - reflexivity.
Qed.

Lemma create_access_token_lifetime_witness :
  Wire.create_access_token
    (Wire.mkClaims (Some "alice") (Some (Wire.JBool false)) None)
    (Some (-5 * one_second)) (60 * one_second)
  = Ok (Wire.JWS ALGORITHM SECRET_KEY
          (Wire.mkClaims (Some "alice") (Some (Wire.JBool false)) (Some 55)))
  /\ Wire.create_access_token
       (Wire.mkClaims (Some "alice") (Some (Wire.JBool false)) None)
       (Some (3000000 * 86400 * one_second)) 0
     = Raise (OtherError "OverflowError").
Proof.
  pose proof (create_access_token_lifetime
                (Wire.mkClaims (Some "alice") (Some (Wire.JBool false)) None)
                (60 * one_second)) as (_ & _ & Hok & _).
  pose proof (create_access_token_lifetime
                (Wire.mkClaims (Some "alice") (Some (Wire.JBool false)) None) 0)
    as (_ & _ & _ & Hover & _).
  split.
  - apply (Hok (-5 * one_second)); [discriminate | reflexivity].
  - apply (Hover (3000000 * 86400 * one_second)); [discriminate | reflexivity].
Defined.

(** X9: issuing and then verifying. A token that [create_access_token]
    returns for data with a subject verifies, up to its expiry second, to
    that subject and to what [TokenData] makes of the data's [is_superuser]
    (of [False] when the data has none); after that second it is turned
    away with [credentials_exception], as is, at any time, a token issued
    for data without a subject. *)
Theorem create_then_decode `{Wire.Boundary} (data : Wire.claims datetime)
    (delta : option timedelta) (issued now : datetime) (tok : Wire.token) :
  Wire.create_access_token data delta issued = Ok tok ->
  let expiry :=
    timegm (issued + or_default delta (timedelta_minutes ACCESS_TOKEN_EXPIRE_MINUTES)) in
  (forall u validated,
     Wire.claim_sub data = Some u ->
     timegm now <= expiry ->
     Wire.TokenData_validate u
       (default (Wire.JBool false) (Wire.claim_is_superuser data)) = Ok validated ->
     Wire.decode_token_data tok now = Ok (mkTokenData (Some u) validated))
  /\ (expiry < timegm now ->
        Wire.decode_token_data tok now = Raise credentials_exception)
  /\ (Wire.claim_sub data = None ->
        Wire.decode_token_data tok now = Raise credentials_exception).
Proof.
  rewrite wire_create_access_token_unfold. cbv zeta.
  destruct (Wire.datetime_in_range _); [|discriminate].
  intros Ht. injection Ht as <-.
  set (expiry := timegm (issued + or_default delta
                                  (timedelta_minutes ACCESS_TOKEN_EXPIRE_MINUTES))).
  set (payload := Wire.mkClaims (Wire.claim_sub data) (Wire.claim_is_superuser data)
                                (Some expiry)).
  assert (Hkey : Wire.same_hmac_key SECRET_KEY SECRET_KEY = true) by reflexivity.
  assert (Hlive : timegm now <= expiry ->
            Wire.jwt_decode (Wire.JWS ALGORITHM SECRET_KEY payload) SECRET_KEY
              [ALGORITHM] now = Ok payload).
  { intros Hle. apply wire_jwt_decode_Ok. exists SECRET_KEY.
    repeat split; try assumption.
    intros exp Hexp. injection Hexp as <-. exact Hle. }
  assert (Hdead : expiry < timegm now ->
            Wire.jwt_decode (Wire.JWS ALGORITHM SECRET_KEY payload) SECRET_KEY
              [ALGORITHM] now = Raise (JWTError ExpiredSignatureError)).
  { intros Hlt. unfold Wire.jwt_decode.
    replace (existsb (String.eqb ALGORITHM) [ALGORITHM]) with true by reflexivity.
    rewrite Hkey. cbn [negb payload Wire.claim_exp].
    apply Z.ltb_lt in Hlt. now rewrite Hlt. }
  unfold Wire.decode_token_data. refine (conj _ (conj _ _)).
  - intros u validated Hsub Hle Hval. rewrite (Hlive Hle).
    cbn [mbind outcome_bind payload Wire.claim_sub Wire.claim_is_superuser].
    rewrite Hsub, Hval. reflexivity.
  - intros Hlt. now rewrite (Hdead Hlt).
  - intros Hsub. destruct (Z.le_gt_cases (timegm now) expiry) as [Hle|Hlt].
    + rewrite (Hlive Hle). cbn [mbind outcome_bind payload Wire.claim_sub].
      now rewrite Hsub.
    + now rewrite (Hdead Hlt).
Qed.

Lemma create_then_decode_witness :
  Wire.create_access_token (Wire.mkClaims (Some "alice") None None)
    (Some (10 * one_second)) 0
  = Ok (Wire.JWS ALGORITHM SECRET_KEY (Wire.mkClaims (Some "alice") None (Some 10)))
  /\ @Wire.decode_token_data psycopg2_pydantic
       (Wire.JWS ALGORITHM SECRET_KEY (Wire.mkClaims (Some "alice") None (Some 10)))
       (10 * one_second)
     = Ok (mkTokenData (Some "alice") (Some false))
  /\ @Wire.decode_token_data psycopg2_pydantic
       (Wire.JWS ALGORITHM SECRET_KEY (Wire.mkClaims (Some "alice") None (Some 10)))
       (11 * one_second)
     = Raise credentials_exception.
Proof.
  split; [reflexivity|].
  pose proof (@create_then_decode psycopg2_pydantic
                (Wire.mkClaims (Some "alice") None None) (Some (10 * one_second)) 0
                (10 * one_second)
                (Wire.JWS ALGORITHM SECRET_KEY
                   (Wire.mkClaims (Some "alice") None (Some 10))) eq_refl)
    as (Hok & _).
  pose proof (@create_then_decode psycopg2_pydantic
                (Wire.mkClaims (Some "alice") None None) (Some (10 * one_second)) 0
                (11 * one_second)
                (Wire.JWS ALGORITHM SECRET_KEY
                   (Wire.mkClaims (Some "alice") None (Some 10))) eq_refl)
    as (_ & Hlate & _).
  split.
  - apply (Hok "alice" (Some false)); [reflexivity | vm_compute; discriminate
                                      | reflexivity].
  - apply Hlate. vm_compute. reflexivity.
Defined.

(** ** The write routes without a usable token *)

Lemma wire_guarded_route `{Wire.Boundary} {A} (handler : User -> db A)
    (t : Wire.token) (now : datetime) (s : Store) (e : exn) :
  fst (Wire.get_current_user t now s) = Raise e ->
  (Wire.Depends_require_admin (Some t) now ≫= handler) s = (Raise e, s).
Proof.
  intros He. unfold mbind at 1. unfold db_bind. rewrite wire_guard_unfold.
  destruct (Wire.get_current_user t now s) as [o s1]. cbn [fst] in He. now subst o.
Qed.

(** X22: a write request with no bearer credentials gets the 401 "Not
    authenticated"; one whose token [get_current_user] turns away gets the
    exception [get_current_user] raised, which is the 401
    [credentials_exception] whenever the token fails to decode. In each
    case no handler runs and the store is left as it was. *)
Theorem writes_unauthenticated `{Wire.Boundary} `{Storage} (now : datetime)
    (s : Store) (product updated : Product) (id : Z) :
  (let missing :=
     HTTPException 401 "Not authenticated" [("WWW-Authenticate", "Bearer")] in
   Wire.route_add_product None now product s = (Raise missing, s)
   /\ Wire.route_update_product None now id updated s = (Raise missing, s)
   /\ Wire.route_delete_product None now id s = (Raise missing, s))
  /\ (forall t e,
        fst (Wire.get_current_user t now s) = Raise e ->
        Wire.route_add_product (Some t) now product s = (Raise e, s)
        /\ Wire.route_update_product (Some t) now id updated s = (Raise e, s)
        /\ Wire.route_delete_product (Some t) now id s = (Raise e, s))
  /\ (forall t e,
        Wire.jwt_decode t SECRET_KEY [ALGORITHM] now = Raise e ->
        fst (Wire.get_current_user t now s) = Raise credentials_exception
        /\ status 200 (Raise (A:=content) credentials_exception) = 401).
Proof.
  refine (conj _ (conj _ _)).
  - cbv zeta. repeat split; reflexivity.
  - intros t e He.
    unfold Wire.route_add_product, Wire.route_update_product, Wire.route_delete_product.
    rewrite !(wire_guarded_route _ t now s e He). auto.
  - intros t e Hd. rewrite wire_get_current_user_unfold, Hd. auto.
Qed.

Lemma writes_unauthenticated_witness :
  fst (@Wire.get_current_user psycopg2_pydantic (wire_token "ghost" (Wire.JBool true))
         0 shop) = Raise credentials_exception
  /\ @Wire.route_add_product psycopg2_pydantic unique_keys
       (Some (wire_token "ghost" (Wire.JBool true))) 0 gadget shop
     = (Raise credentials_exception, shop)
  /\ @Wire.route_delete_product psycopg2_pydantic unique_keys
       (Some (wire_token nul_name (Wire.JBool true))) 0 7 shop
     = (Raise (OtherError "ValueError"), shop).
Proof.
  split; [reflexivity|].
  pose proof (proj1 (proj2 (@writes_unauthenticated psycopg2_pydantic unique_keys
                              0 shop gadget gadget 7))) as Hno.
  split.
  - apply (Hno (wire_token "ghost" (Wire.JBool true)) credentials_exception).
    reflexivity.
  - apply (Hno (wire_token nul_name (Wire.JBool true)) (OtherError "ValueError")).
    reflexivity.
Defined.
